(** * Self-update routine of the [update] command (main.go)

    A shallow embedding of [Execute], [buildFilename] and [downloadBinary]
    together with the parts of the Go runtime and standard library they
    call.  The program is sequential I/O code, so it is written in a small
    monad that threads the file system, logs the external calls and ends
    in a returned value or in a Go panic.  The operating system, the
    network and the archive decoders are an [Env] record the program is
    parameterised by: each fallible call takes its answer from there. *)

From Stdlib Require Import ZArith Ascii String List Lia.
From stdpp Require Import base option list strings pretty gmap fin_maps.


(** ** Strings and formatting *)

(** The line feed written as [\n] in Go literals. *)
Definition LF : string := String (ascii_of_nat 10) EmptyString.

(** [go_join sep xs] is Go's [strings.Join]. *)
Fixpoint go_join (sep : string) (xs : list string) : string :=
  match xs with
  | [] => ""
  | [x] => x
  | x :: rest => x +:+ sep +:+ go_join sep rest
  end.

(** [fmt.Sprintf] restricted to what main.go uses: operands are strings,
    the verbs are [%s] and [%%].  A [%s] without operand prints Go's
    [%!s(MISSING)], operands left over are reported in a trailing
    [%!(EXTRA ...)]. *)
Fixpoint Sprintf (format : string) (args : list string) : string :=
  match format with
  | EmptyString =>
      match args with
      | [] => ""
      | _ => "%!(EXTRA " +:+ go_join ", " (map (fun a => "string=" +:+ a) args) +:+ ")"
      end
  | String "%" (String "s" rest) =>
      match args with
      | a :: args' => a +:+ Sprintf rest args'
      | [] => "%!s(MISSING)" +:+ Sprintf rest []
      end
  | String "%" (String "%" rest) => String "%" (Sprintf rest args)
  | String c rest => String c (Sprintf rest args)
  end.

(** ** Data of main.go *)

(** [type infos struct]. *)
Record infos := mkInfos {
  AppRepoOwner : string;
  AppName : string;
  AppVersion : string
}.

Definition newInfos (owner name ver : string) : infos :=
  {| AppRepoOwner := owner; AppName := name; AppVersion := ver |}.

(** [binaryChmodValue = 0o755]. *)
Definition binaryChmodValue : Z := 7 * 64 + 5 * 8 + 5.

(** The four error types of main.go; each is a struct with one [Message]
    field, so one inductive type with four constructors. *)
Inductive error :=
| DownloadError (Message : string)
| ImportError (Message : string)
| GenerateError (Message : string)
| DeleteError (Message : string).

(** The [Error()] methods. *)
Definition Error (e : error) : string :=
  match e with
  | DownloadError m => Sprintf "download error: %s" [m]
  | ImportError m => Sprintf "import error: %s" [m]
  | GenerateError m => Sprintf "generate error: %s" [m]
  | DeleteError m => Sprintf "delete error: %s" [m]
  end.

(** [runtime.GOOS] and [runtime.GOARCH], constants of the build. *)
Record Runtime := mkRuntime { GOOS : string; GOARCH : string }.

(** [func (c *Update) buildFilename(version string, info *infos) string]. *)
Definition buildFilename (rt : Runtime) (version : string) (info : infos) : string :=
  Sprintf "%s-%s-%s-%s.tar.gz" [AppName info; version; GOOS rt; GOARCH rt].

(** ** Releases as the release-check library returns them *)

(** [grc.Asset], the two fields main.go reads. *)
Record Asset := mkAsset { Name : string; BrowserDownloadURL : string }.

(** [grc.Release], the two fields main.go reads. *)
Record Release := mkRelease { TagName : string; Assets : list Asset }.

(** The zero value of [var assetToDownload grc.Asset]. *)
Definition zeroAsset : Asset := mkAsset "" "".

(** ** The world outside the program *)

(** A value together with a library error, for calls of type [(T, error)]
    whose value is only used when the error is nil. *)
Inductive result (A : Type) :=
| Ok (a : A)
| Err (msg : string).
Arguments Ok {A} a.
Arguments Err {A} msg.

(** An [io.Reader] seen from its consumer: the bytes it delivers and how
    it ends, with [io.EOF] ([None]) or with an error. *)
Record Reader := mkReader { r_data : list Byte.byte; r_err : option string }.

Definition emptyReader : Reader := mkReader [] None.

(** A tar stream as [tar.Reader] walks it: the entries in order (name and
    content stream) and what [Next] answers after the last one, [io.EOF]
    ([None]) or an error such as an invalid header. *)
Record Entry := mkEntry { e_name : string; e_body : Reader }.
Record Archive := mkArchive { entries : list Entry; a_end : option string }.

Record Request := mkRequest { req_method : string; req_url : string }.
Record Response := mkResponse { Body : Reader }.

(** A regular file: content and permission bits. *)
Record File := mkFile { f_data : list Byte.byte; f_mode : Z }.

(** The file system maps paths to files. *)
Abbreviation FS := (gmap string File).

(** Things that get closed. *)
Inductive Handle :=
| HBody
| HGzip
| HFile (name : string).

(** The calls the program makes to the outside, in the order they return,
    each with its arguments and the error it answered ([None] for nil).
    A call that panics does not return and is not logged. *)
Inductive Event :=
| EvStdout (text : string)
| EvCheck (owner name version : string)
| EvNewRequest (method uri : string) (err : option string)
| EvDo (req : Request) (err : option string)
| EvGzipNewReader (err : option string)
| EvTarNext (err : option string)
| EvExecutable (path : string) (err : option string)
| EvCreateTemp (dir pattern : string) (err : option string)
| EvCopy (dst : string) (written : list Byte.byte) (err : option string)
| EvChmod (name : string) (mode : Z) (err : option string)
| EvRename (oldpath newpath : string) (err : option string)
| EvClose (h : Handle).

(** Everything main.go does not decide itself: build constants, the
    release check, the network, the decoders and the faults of the file
    system calls. *)
Record Env := mkEnv {
  runtime : Runtime;
  (** [grc.Check]: (hasUpdate, release, err). *)
  grc_Check : string -> string -> string -> bool * Release * option string;
  (** why [http.NewRequestWithContext] rejects a URL, if it does *)
  url_fault : string -> option string;
  (** [http.Client.Do] *)
  http_Do : Request -> result Response;
  (** the gzip decoder: [Err] when the header read at open time is bad,
      else the decompressed stream, which may itself end in an error *)
  gunzip : Reader -> result Reader;
  (** the tar decoder over a decompressed stream *)
  untar : Reader -> Archive;
  (** [osext.Executable]: a path and an error, both returned *)
  executable : string * option string;
  (** [path.Dir] *)
  path_Dir : string -> string;
  (** the name [os.CreateTemp] proposes at its n-th attempt *)
  temp_name : string -> string -> nat -> string;
  (** why creating a file of that name fails, other than its existing *)
  open_fault : string -> option string;
  (** a write fault on that file: after how many bytes, and the error *)
  write_fault : string -> option (nat * string);
  chmod_fault : string -> option string;
  rename_fault : string -> string -> option string
}.

(** ** The monad: state, log and panics *)

Inductive Outcome (A : Type) :=
| Returned (a : A)
| Panicked (msg : string).
Arguments Returned {A} a.
Arguments Panicked {A} msg.

(** A computation runs on a file system and gives an outcome, the file
    system it leaves and the events it logged. *)
Definition M (A : Type) : Type := FS -> Outcome A * FS * list Event.

Definition ret {A} (a : A) : M A := fun fs => (Returned a, fs, []).

Definition bind {A B} (m : M A) (k : A -> M B) : M B := fun fs =>
  match m fs with
  | (Returned a, fs1, ev1) =>
      match k a fs1 with
      | (o, fs2, ev2) => (o, fs2, ev1 ++ ev2)
      end
  | (Panicked msg, fs1, ev1) => (Panicked msg, fs1, ev1)
  end.

Definition panic {A} (msg : string) : M A := fun fs => (Panicked msg, fs, []).

Definition emit (e : Event) : M unit := fun fs => (Returned tt, fs, [e]).

Definition get_fs : M FS := fun fs => (Returned fs, fs, []).

Definition put_fs (fs' : FS) : M unit := fun _ => (Returned tt, fs', []).

(** Go's [defer d] around the rest of the function body: [d] runs when the
    body is left, by return or by panic; a panic of [d] becomes the
    outcome. *)
Definition defer {A} (d : M unit) (body : M A) : M A := fun fs =>
  match body fs with
  | (o, fs1, ev1) =>
      match d fs1 with
      | (Returned _, fs2, ev2) => (o, fs2, ev1 ++ ev2)
      | (Panicked msg, fs2, ev2) => (Panicked msg, fs2, ev1 ++ ev2)
      end
  end.

(** The monad is used through stdpp's notations [x ← m; k] and [m ;; k]. *)
#[global] Instance M_ret : MRet M := @ret.
#[global] Instance M_bind : MBind M := fun A B k m => bind m k.

Definition nil_deref : string :=
  "runtime error: invalid memory address or nil pointer dereference".

(** ** Library calls *)

Definition fmt_Printf (format : string) (args : list string) : M unit :=
  emit (EvStdout (Sprintf format args)).

Definition fmt_Println (s : string) : M unit :=
  emit (EvStdout (s +:+ LF)).

Definition MethodGet : string := "GET".

Definition err_of {A} (r : result A) : option string :=
  match r with
  | Ok _ => None
  | Err e => Some e
  end.

Definition http_NewRequestWithContext (env : Env) (method uri : string)
  : M (result Request) :=
  emit (EvNewRequest method uri (url_fault env uri)) ;;
  match url_fault env uri with
  | Some e => ret (Err e)
  | None => ret (Ok (mkRequest method uri))
  end.

Definition client_Do (env : Env) (request : Request) : M (result Response) :=
  emit (EvDo request (err_of (http_Do env request))) ;;
  ret (http_Do env request).

(** [gzip.NewReader] answers [(nil, err)] when it fails: the pointer is an
    [option]. *)
Definition gzip_NewReader (env : Env) (r : Reader) : M (option Reader * option string) :=
  emit (EvGzipNewReader (err_of (gunzip env r))) ;;
  match gunzip env r with
  | Ok z => ret (Some z, None)
  | Err e => ret (None, Some e)
  end.

(** [Close] of a gzip reader reads a field of its pointer receiver. *)
Definition gzip_Close (z : option Reader) : M unit :=
  match z with
  | Some _ => emit (EvClose HGzip)
  | None => panic nil_deref
  end.

Definition Body_Close (response : Response) : M unit := emit (EvClose HBody).

(** A [tar.Reader]: what is left of the archive ([None] when the reader it
    was made from is a nil [*gzip.Reader]) and the entry it stands on. *)
Record TarReader := mkTarReader { tr_src : option Archive; tr_curr : Reader }.

Definition tar_NewReader (env : Env) (z : option Reader) : TarReader :=
  mkTarReader (untar env <$> z) emptyReader.

(** [Next] of a tar reader reads the next header from the underlying
    reader, whose [Read] dereferences its pointer receiver. *)
Definition tar_Next (tr : TarReader) : M (result string * TarReader) :=
  match tr_src tr with
  | None => panic nil_deref
  | Some a =>
      match entries a with
      | [] =>
          emit (EvTarNext (Some (default "EOF" (a_end a)))) ;;
          ret (Err (default "EOF" (a_end a)), tr)
      | e :: rest =>
          emit (EvTarNext None) ;;
          ret (Ok (e_name e), mkTarReader (Some (mkArchive rest (a_end a))) (e_body e))
      end
  end.

Definition osext_Executable (env : Env) : M (string * option string) :=
  emit (EvExecutable (executable env).1 (executable env).2) ;;
  ret (executable env).

(** How often [os.CreateTemp] tries a new name. *)
Definition temp_attempts : nat := Z.to_nat 10000.

(** The loop of [os.CreateTemp]: the file is opened with [O_EXCL], a name
    that exists is skipped, and after [fuel] names that exist the call
    gives up. *)
Fixpoint CreateTemp_loop (env : Env) (fs : FS) (dir pattern : string)
    (tries fuel : nat) : result string :=
  match fuel with
  | O => Err "file exists"
  | S fuel' =>
      let name := temp_name env dir pattern tries in
      match fs !! name with
      | Some _ => CreateTemp_loop env fs dir pattern (S tries) fuel'
      | None =>
          match open_fault env name with
          | Some e => Err e
          | None => Ok name
          end
      end
  end.

(** [os.CreateTemp]: a new empty file of mode 0600; the handle is
    identified with the file's name. *)
Definition os_CreateTemp (env : Env) (dir pattern : string) : M (result string) :=
  fs ← get_fs;
  match CreateTemp_loop env fs dir pattern 0 temp_attempts with
  | Ok name =>
      put_fs (<[name := mkFile [] (6 * 64)]> fs) ;;
      emit (EvCreateTemp dir pattern None) ;;
      ret (Ok name)
  | Err e =>
      emit (EvCreateTemp dir pattern (Some e)) ;;
      ret (Err e)
  end.

Definition file_Name (file : string) : string := file.

Definition file_Close (file : string) : M unit := emit (EvClose (HFile file)).

Definition append_data (bs : list Byte.byte) (f : File) : File :=
  mkFile (f_data f ++ bs) (f_mode f).

(** What [io.Copy] gets through from a source to that file: the bytes
    written and the error it ends with.  A write fault that strikes before
    the source is exhausted stops the copy there; else all bytes are
    written and the error is the one the source ends with (nil for
    [io.EOF]). *)
Definition copy_plan (env : Env) (file : string) (src : Reader)
  : list Byte.byte * option string :=
  match write_fault env file with
  | Some (n, e) =>
      if (n <? length (r_data src))%nat then (firstn n (r_data src), Some e)
      else (r_data src, r_err src)
  | None => (r_data src, r_err src)
  end.

(** [io.Copy(file, tarReader)]: the bytes of the current entry are
    appended to the file; the answer is the number of bytes written and
    the error. *)
Definition io_Copy (env : Env) (file : string) (tr : TarReader) : M (result nat) :=
  let '(written, err) := copy_plan env file (tr_curr tr) in
  fs ← get_fs;
  put_fs (alter (append_data written) file fs) ;;
  emit (EvCopy file written err) ;;
  match err with
  | Some e => ret (Err e)
  | None => ret (Ok (length written))
  end.

Definition set_mode (mode : Z) (f : File) : File := mkFile (f_data f) mode.

Definition file_Chmod (env : Env) (file : string) (mode : Z) : M (option string) :=
  emit (EvChmod file mode (chmod_fault env file)) ;;
  match chmod_fault env file with
  | Some e => ret (Some e)
  | None => fs ← get_fs; put_fs (alter (set_mode mode) file fs) ;; ret None
  end.

Definition os_Rename (env : Env) (oldpath newpath : string) : M (option string) :=
  fs ← get_fs;
  match fs !! oldpath with
  | None =>
      emit (EvRename oldpath newpath (Some "no such file or directory")) ;;
      ret (Some "no such file or directory")
  | Some f =>
      match rename_fault env oldpath newpath with
      | Some e =>
          emit (EvRename oldpath newpath (Some e)) ;;
          ret (Some e)
      | None =>
          put_fs (<[newpath := f]> (delete oldpath fs)) ;;
          emit (EvRename oldpath newpath None) ;;
          ret None
      end
  end.

(** ** main.go *)

(** [if err != nil { return DownloadError{Message: err.Error()} }] after a
    call of type [(T, error)], and after a call of type [error]. *)
Notation "'try' x ← m ; k" :=
  (bind m (fun r => match r with
                    | Ok x => k
                    | Err err => ret (Some (DownloadError err))
                    end))
  (at level 20, x name, m at level 100, k at level 200, only parsing).
Notation "'check' m ; k" :=
  (bind m (fun r => match r with
                    | None => k
                    | Some err => ret (Some (DownloadError err))
                    end))
  (at level 20, m at level 100, k at level 200, only parsing).

(** [func (c *Update) downloadBinary(uri string, info *infos) error]. *)
Definition downloadBinary (env : Env) (uri : string) (info : infos) : M (option error) :=
  fmt_Println " -> Download..." ;;
  try request ← http_NewRequestWithContext env MethodGet uri;
  try response ← client_Do env request;
  defer (Body_Close response) (
    '(gzipReader, _) ← gzip_NewReader env (Body response);
    defer (gzip_Close gzipReader) (
      fmt_Println " -> Extract..." ;;
      let tarReader := tar_NewReader env gzipReader in
      '(hdr, tarReader) ← tar_Next tarReader;
      match hdr with
      | Err err => ret (Some (DownloadError err))
      | Ok _ =>
          '(currentExecutable, _) ← osext_Executable env;
          let originalPath := path_Dir env currentExecutable in
          try file ← os_CreateTemp env originalPath (AppName info);
          defer (file_Close file) (
            try _n ← io_Copy env file tarReader;
            check file_Chmod env file binaryChmodValue;
            check os_Rename env (file_Name file) currentExecutable;
            ret None)
      end)).

(** The loop [for _, asset := range release.Assets] of [Execute], on the
    two variables it assigns; [break] stops at the first match. *)
Fixpoint scanAssets (rt : Runtime) (release : Release) (info : infos)
    (assets : list Asset) (st : Asset * bool) : Asset * bool :=
  match assets with
  | [] => st
  | asset :: rest =>
      if String.eqb (Name asset) (buildFilename rt (TagName release) info)
      then (asset, true)
      else scanAssets rt release info rest st
  end.

(** [func (c *Update) Execute(info *infos)]. *)
Definition Execute (env : Env) (info : infos) : M unit :=
  emit (EvCheck (AppRepoOwner info) (AppName info) (AppVersion info)) ;;
  let '(hasUpdate, release, _) :=
    grc_Check env (AppRepoOwner info) (AppName info) (AppVersion info) in
  if negb hasUpdate then
    fmt_Printf ("Your %s is up-to-date. \o/" +:+ LF) [AppName info]
  else
    let '(assetToDownload, found) :=
      scanAssets (runtime env) release info (Assets release) (zeroAsset, false) in
    if negb found then
      fmt_Printf ("Your %s is up-to-date. \o/" +:+ LF) [AppName info]
    else
      downloadError ← downloadBinary env (BrowserDownloadURL assetToDownload) info;
      match downloadError with
      | Some e => fmt_Printf ("Error: %s" +:+ LF) [Error e]
      | None => ret tt
      end ;;
      fmt_Printf ("Now you have a fresh new %s \o/" +:+ LF) [AppName info].

(** [func main()]. *)
Definition main (env : Env) : M unit :=
  fmt_Printf ("hello, world" +:+ LF) [] ;;
  let infos := newInfos "Heidelberger" "update" "v1.0.0" in
  Execute env infos.

(** ** Vocabulary of the statements *)

Definition outcome_of {A} (r : Outcome A * FS * list Event) : Outcome A := r.1.1.
Definition fs_of {A} (r : Outcome A * FS * list Event) : FS := r.1.2.
Definition log_of {A} (r : Outcome A * FS * list Event) : list Event := r.2.

(** The three lines [Execute] can print. *)
Definition up_to_date_line (info : infos) : string :=
  "Your " +:+ AppName info +:+ " is up-to-date. \o/" +:+ LF.
Definition error_line (e : error) : string :=
  "Error: " +:+ Error e +:+ LF.
Definition success_line (info : infos) : string :=
  "Now you have a fresh new " +:+ AppName info +:+ " \o/" +:+ LF.

(** The archive the program reads when it fetches [uri], if the request,
    the transfer and the opening of the gzip stream all succeed. *)
Definition archive_at (env : Env) (uri : string) : option Archive :=
  match url_fault env uri with
  | Some _ => None
  | None =>
      match http_Do env (mkRequest MethodGet uri) with
      | Err _ => None
      | Ok response =>
          match gunzip env (Body response) with
          | Err _ => None
          | Ok z => Some (untar env z)
          end
      end
  end.

(** The error a logged call answered.  Printing, the release check and
    the deferred closes have none that the program could look at. *)
Definition ev_err (ev : Event) : option string :=
  match ev with
  | EvNewRequest _ _ err | EvDo _ err | EvGzipNewReader err | EvTarNext err
  | EvExecutable _ err | EvCreateTemp _ _ err | EvCopy _ _ err
  | EvChmod _ _ err | EvRename _ _ err => err
  | EvStdout _ | EvCheck _ _ _ | EvClose _ => None
  end.

(** The same, for the calls whose error [downloadBinary] binds to [err]
    and tests; the two it assigns to the blank identifier are left out. *)
Definition ev_checked_err (ev : Event) : option string :=
  match ev with
  | EvGzipNewReader _ | EvExecutable _ _ => None
  | _ => ev_err ev
  end.

Definition is_close (ev : Event) : bool :=
  match ev with EvClose _ => true | _ => false end.
Definition is_rename (ev : Event) : bool :=
  match ev with EvRename _ _ _ => true | _ => false end.
Definition is_create_temp (ev : Event) : bool :=
  match ev with EvCreateTemp _ _ _ => true | _ => false end.
Definition is_panic {A} (o : Outcome A) : bool :=
  match o with Panicked _ => true | Returned _ => false end.

(** "Every failure at every stage is wrapped into a Download error and
    returned at once, and the procedure never panics", for one run: an
    event that carries an error is followed by deferred closes only and
    its error is the one returned. *)
Definition every_failure_returned (env : Env) (uri : string) (info : infos)
    (fs : FS) : Prop :=
  (forall pre ev post m,
      log_of (downloadBinary env uri info fs) = pre ++ ev :: post ->
      ev_err ev = Some m ->
      outcome_of (downloadBinary env uri info fs) = Returned (Some (DownloadError m))
      /\ forallb is_close post = true)
  /\ is_panic (outcome_of (downloadBinary env uri info fs)) = false.

(** "The success line is printed on every path that reaches the download
    step", for one run of [Execute]: when the check reports an update and
    the scan finds an asset, the success line is in the log. *)
Definition success_after_download (env : Env) (info : infos) (fs : FS) : Prop :=
  forall release cerr asset,
    grc_Check env (AppRepoOwner info) (AppName info) (AppVersion info)
      = (true, release, cerr) ->
    scanAssets (runtime env) release info (Assets release) (zeroAsset, false)
      = (asset, true) ->
    EvStdout (success_line info) ∈ log_of (Execute env info fs).

(** The two progress lines of [downloadBinary]. *)
Definition ev_download : Event := EvStdout (" -> Download..." +:+ LF).
Definition ev_extract : Event := EvStdout (" -> Extract..." +:+ LF).

(** The file system after the temporary file was created and the copy
    ran, and after its mode was then set. *)
Definition fs_copied (fs : FS) (tmp : string) (written : list Byte.byte) : FS :=
  alter (append_data written) tmp (<[tmp := mkFile [] (6 * 64)]> fs).
Definition fs_chmoded (fs : FS) (tmp : string) (written : list Byte.byte) : FS :=
  alter (set_mode binaryChmodValue) tmp (fs_copied fs tmp written).

(** [P pre x post] at every position [x] of [l], [pre0 ++ pre] being what
    comes before it and [post] what comes after. *)
Fixpoint each_split {A} (P : list A -> A -> list A -> Prop)
    (pre0 l : list A) : Prop :=
  match l with
  | [] => True
  | x :: post => P pre0 x post /\ each_split P (pre0 ++ [x]) post
  end.

(** The log with another error in the answer of [osext.Executable]. *)
Definition with_exec_err (e : option string) (ev : Event) : Event :=
  match ev with
  | EvExecutable p _ => EvExecutable p e
  | _ => ev
  end.

(** An environment with another answer of [osext.Executable]. *)
Definition set_executable (x : string * option string) (env : Env) : Env :=
  mkEnv (runtime env) (grc_Check env) (url_fault env) (http_Do env) (gunzip env)
        (untar env) x (path_Dir env) (temp_name env) (open_fault env)
        (write_fault env) (chmod_fault env) (rename_fault env).

(** ** Sample worlds *)

Module Sample.

(** All of the path before its last slash, [/] for a file of the root
    and [.] for a path without slash: what [path.Dir] gives on the clean
    paths used below. *)
Fixpoint dir_of (p acc cur : string) (seen : bool) : string :=
  match p with
  | EmptyString =>
      if seen then (if String.eqb acc "" then "/" else acc) else "."
  | String c rest =>
      if Ascii.eqb c "/" then dir_of rest (acc +:+ cur) (String c EmptyString) true
      else dir_of rest acc (cur +:+ String c EmptyString) seen
  end.

Definition old_binary : list Byte.byte := [Byte.x23; Byte.x21; Byte.x0a].
Definition new_binary : list Byte.byte :=
  [Byte.x7f; Byte.x45; Byte.x4c; Byte.x46; Byte.x02; Byte.x01].

Definition exe : string := "/usr/local/bin/update".

Definition disk : FS := {[ exe := mkFile old_binary binaryChmodValue ]}.

Definition info : infos := newInfos "Heidelberger" "update" "v1.0.0".

Definition release : Release :=
  mkRelease "v1.2.0"
    [ mkAsset "update-v1.2.0-darwin-arm64.tar.gz" "https://example.org/darwin";
      mkAsset "update-v1.2.0-linux-amd64.tar.gz" "https://example.org/linux";
      mkAsset "update-v1.2.0-linux-amd64.tar.gz" "https://example.org/again" ].

Definition foreign_release : Release :=
  mkRelease "v1.2.0"
    [ mkAsset "update-v1.2.0-darwin-arm64.tar.gz" "https://example.org/darwin";
      mkAsset "update-v1.2.0-LINUX-amd64.tar.gz" "https://example.org/upper" ].

(** A Linux machine and a server that answers every request.  The
    arguments are the answers that vary below: of the release check, of
    the gzip and tar decoders, of the path resolution, and a write fault.
    A file cannot be renamed onto the directory [.]. *)
Definition world (answer : bool * Release * option string)
    (gz : result Reader) (tar : Archive)
    (self : string * option string)
    (wfault : option (nat * string)) : Env :=
  {| runtime := mkRuntime "linux" "amd64";
     grc_Check := fun _ _ _ => answer;
     url_fault := fun _ => None;
     http_Do := fun _ => Ok (mkResponse (mkReader [Byte.x1f; Byte.x8b] None));
     gunzip := fun _ => gz;
     untar := fun _ => tar;
     executable := self;
     path_Dir := fun p => dir_of p "" "" false;
     temp_name := fun dir pattern n => dir +:+ "/" +:+ pattern +:+ pretty n;
     open_fault := fun _ => None;
     write_fault := fun _ => wfault;
     chmod_fault := fun _ => None;
     rename_fault := fun old new =>
       if String.eqb new "."
       then Some ("rename " +:+ old +:+ " .: device or resource busy")
       else None |}.

Definition good_gz : result Reader := Ok (mkReader [] None).
Definition good_tar : Archive :=
  mkArchive [mkEntry "update" (mkReader new_binary None)] None.
Definition empty_tar : Archive := mkArchive [] None.

Definition healthy : Env :=
  world (true, release, None) good_gz good_tar (exe, None) None.
Definition up_to_date : Env :=
  world (false, release, None) good_gz good_tar (exe, None) None.
Definition no_asset : Env :=
  world (true, foreign_release, None) good_gz good_tar (exe, None) None.
Definition disk_full : Env :=
  world (true, release, None) good_gz good_tar (exe, None)
        (Some (4%nat, "no space left on device")).
Definition no_entries : Env :=
  world (true, release, None) good_gz empty_tar (exe, None) None.
Definition not_gzip : Env :=
  world (true, release, None) (Err "gzip: invalid header") good_tar (exe, None) None.
Definition self_unknown : Env :=
  world (true, release, None) good_gz good_tar
        (".", Some "readlink /proc/self/exe: no such file or directory") None.

End Sample.

(** ** Vocabulary of the further properties *)

(** How many events of a log satisfy [p]. *)
Fixpoint count_events (p : Event -> bool) (log : list Event) : nat :=
  match log with
  | [] => O
  | ev :: rest => (if p ev then 1 else 0) + count_events p rest
  end.

Definition is_check (ev : Event) : bool :=
  match ev with EvCheck _ _ _ => true | _ => false end.
Definition is_do (ev : Event) : bool :=
  match ev with EvDo _ _ => true | _ => false end.

(** An environment with another release check. *)
Definition set_check
    (c : string -> string -> string -> bool * Release * option string)
    (env : Env) : Env :=
  mkEnv (runtime env) c (url_fault env) (http_Do env) (gunzip env)
        (untar env) (executable env) (path_Dir env) (temp_name env)
        (open_fault env) (write_fault env) (chmod_fault env) (rename_fault env).

(** A release check that answers as [c] does, but with the error [e]. *)
Definition with_check_err (e : option string)
    (c : string -> string -> string -> bool * Release * option string)
    (owner name version : string) : bool * Release * option string :=
  ((c owner name version).1.1, (c owner name version).1.2, e).

(** An environment with another tar decoder. *)
Definition set_untar (u : Reader -> Archive) (env : Env) : Env :=
  mkEnv (runtime env) (grc_Check env) (url_fault env) (http_Do env) (gunzip env)
        u (executable env) (path_Dir env) (temp_name env)
        (open_fault env) (write_fault env) (chmod_fault env) (rename_fault env).

(** The archive cut after its first entry. *)
Definition first_only (a : Archive) : Archive :=
  match entries a with
  | [] => a
  | e :: _ => mkArchive [e] None
  end.

(** The error of the first call of a log that failed among those whose
    error [downloadBinary] tests. *)
Definition first_checked_err (log : list Event) : option string :=
  head (omap ev_checked_err log).

Definition is_gzip_failure (ev : Event) : bool :=
  match ev with EvGzipNewReader (Some _) => true | _ => false end.

(** * Properties *)

Lemma Sprintf_s (rest a : string) (args : list string) :
  Sprintf (String "%" (String "s" rest)) (a :: args) = a +:+ Sprintf rest args.
Proof. reflexivity. Qed.

(** C7. [buildFilename] is a function of (appName, tag, os, arch) alone and
    its value is the four fields joined by dashes and followed by
    [.tar.gz]; for update, v1.2.0, linux, amd64 it is
    [update-v1.2.0-linux-amd64.tar.gz]. *)
Theorem buildFilename_spec :
  (forall rt version info,
      buildFilename rt version info =
      AppName info +:+ "-" +:+ version +:+ "-" +:+ GOOS rt +:+ "-" +:+ GOARCH rt +:+ ".tar.gz")
  /\ (forall os arch tag name owner owner' ver ver',
      buildFilename (mkRuntime os arch) tag (newInfos owner name ver) =
      buildFilename (mkRuntime os arch) tag (newInfos owner' name ver'))
  /\ buildFilename (mkRuntime "linux" "amd64") "v1.2.0" (newInfos "Heidelberger" "update" "v1.0.0")
     = "update-v1.2.0-linux-amd64.tar.gz".
Proof.
  split; [|split].
  - intros rt version info. unfold buildFilename.
    rewrite !Sprintf_s. reflexivity.
  - reflexivity.
  - reflexivity.
Qed.

(** ** Formatting and the asset scan *)

Lemma Printf_up_to_date (info : infos) :
  Sprintf ("Your %s is up-to-date. \o/" +:+ LF) [AppName info] = up_to_date_line info.
Proof. reflexivity. Qed.

Lemma Printf_error (e : error) :
  Sprintf ("Error: %s" +:+ LF) [Error e] = error_line e.
Proof. reflexivity. Qed.

Lemma Printf_success (info : infos) :
  Sprintf ("Now you have a fresh new %s \o/" +:+ LF) [AppName info] = success_line info.
Proof. reflexivity. Qed.

Lemma append_empty (s : string) : s +:+ "" = s.
Proof.
  induction s as [|c s IH]; [reflexivity|].
  change (String c (s +:+ "") = String c s). by rewrite IH.
Qed.

Lemma Error_DownloadError (m : string) :
  Error (DownloadError m) = "download error: " +:+ m.
Proof. simpl. by rewrite append_empty. Qed.

Lemma scanAssets_no_match rt release info assets st :
  Forall (fun a => Name a <> buildFilename rt (TagName release) info) assets ->
  scanAssets rt release info assets st = st.
Proof.
  induction 1 as [|a assets Ha _ IH]; simpl; [reflexivity|].
  destruct (String.eqb_spec (Name a) (buildFilename rt (TagName release) info));
    [contradiction | exact IH].
Qed.

Lemma scanAssets_first_match rt release info pre a post st :
  Forall (fun b => Name b <> buildFilename rt (TagName release) info) pre ->
  Name a = buildFilename rt (TagName release) info ->
  scanAssets rt release info (pre ++ a :: post) st = (a, true).
Proof.
  intros Hpre Ha. induction Hpre as [|b pre Hb _ IH]; simpl.
  - by rewrite Ha, String.eqb_refl.
  - destruct (String.eqb_spec (Name b) (buildFilename rt (TagName release) info));
      [contradiction | exact IH].
Qed.

(** ** Running the monad *)

Lemma bind_run {A B} (m : M A) (k : A -> M B) (fs : FS) :
  (m ≫= k) fs =
  match m fs with
  | (Returned a, fs1, ev1) =>
      match k a fs1 with (o, fs2, ev2) => (o, fs2, ev1 ++ ev2) end
  | (Panicked msg, fs1, ev1) => (Panicked msg, fs1, ev1)
  end.
Proof. reflexivity. Qed.

Lemma emit_bind {B} (ev : Event) (k : M B) (fs : FS) :
  (emit ev ;; k) fs = match k fs with (o, fs2, ev2) => (o, fs2, ev :: ev2) end.
Proof. reflexivity. Qed.

(** ** [Execute] *)

(** What [Execute] does once the release check has reported an update. *)
Lemma Execute_has_update env info release cerr fs :
  grc_Check env (AppRepoOwner info) (AppName info) (AppVersion info)
    = (true, release, cerr) ->
  Execute env info fs =
  (let '(assetToDownload, found) :=
     scanAssets (runtime env) release info (Assets release) (zeroAsset, false) in
   emit (EvCheck (AppRepoOwner info) (AppName info) (AppVersion info)) ;;
   if negb found then emit (EvStdout (up_to_date_line info))
   else
     downloadError ← downloadBinary env (BrowserDownloadURL assetToDownload) info;
     match downloadError with
     | Some e => emit (EvStdout (error_line e))
     | None => ret tt
     end ;;
     emit (EvStdout (success_line info))) fs.
Proof.
  intros Hc. unfold Execute. rewrite Hc. simpl negb. cbv iota.
  destruct (scanAssets _ _ _ _ _) as [assetToDownload found].
  reflexivity.
Qed.

(** The run of [Execute] when the release check reports no update. *)
Lemma Execute_without_update env info fs release cerr :
  grc_Check env (AppRepoOwner info) (AppName info) (AppVersion info)
    = (false, release, cerr) ->
  Execute env info fs =
  (Returned tt, fs,
   [EvCheck (AppRepoOwner info) (AppName info) (AppVersion info);
    EvStdout (up_to_date_line info)]).
Proof.
  intros Hc. unfold Execute. rewrite Hc. reflexivity.
Qed.

(** C5. When the release check answers hasUpdate = false, [Execute] prints
    the up-to-date line and nothing else and returns: the only call it has
    made is the check, so no asset was looked at, nothing was fetched, and
    the file system is the one it started from. *)
Theorem Execute_no_update env info fs release cerr :
  grc_Check env (AppRepoOwner info) (AppName info) (AppVersion info)
    = (false, release, cerr) ->
  Execute env info fs =
  (Returned tt, fs,
   [EvCheck (AppRepoOwner info) (AppName info) (AppVersion info);
    EvStdout (up_to_date_line info)]).
Proof. apply Execute_without_update. Qed.

Lemma Execute_no_update_witness :
  Execute Sample.up_to_date Sample.info Sample.disk =
  (Returned tt, Sample.disk,
   [EvCheck "Heidelberger" "update" "v1.0.0";
    EvStdout (up_to_date_line Sample.info)]).
Proof.
  apply (Execute_no_update Sample.up_to_date Sample.info Sample.disk
           Sample.release None).
  reflexivity.
Defined.

(** C6. When an update exists but no asset of the release is named exactly
    as [buildFilename] says, [Execute] does what it does for
    hasUpdate = false: the same line, no download, same file system.  The
    scan compares names with string equality and stops at the first asset
    that matches, which is then the one whose URL is downloaded. *)
Theorem Execute_no_matching_asset env info fs release cerr :
  grc_Check env (AppRepoOwner info) (AppName info) (AppVersion info)
    = (true, release, cerr) ->
  (Forall (fun a => Name a <> buildFilename (runtime env) (TagName release) info)
          (Assets release) ->
   Execute env info fs =
   (Returned tt, fs,
    [EvCheck (AppRepoOwner info) (AppName info) (AppVersion info);
     EvStdout (up_to_date_line info)])
   /\ forall env' release' cerr',
       grc_Check env' (AppRepoOwner info) (AppName info) (AppVersion info)
         = (false, release', cerr') ->
       Execute env info fs = Execute env' info fs)
  /\ (forall pre a post,
       Assets release = pre ++ a :: post ->
       Forall (fun b => Name b <> buildFilename (runtime env) (TagName release) info) pre ->
       Name a = buildFilename (runtime env) (TagName release) info ->
       scanAssets (runtime env) release info (Assets release) (zeroAsset, false)
         = (a, true)
       /\ exists tail,
           log_of (Execute env info fs) =
           EvCheck (AppRepoOwner info) (AppName info) (AppVersion info)
           :: log_of (downloadBinary env (BrowserDownloadURL a) info fs) ++ tail).
Proof.
  intros Hc. split.
  - intros Hno.
    assert (Execute env info fs =
            (Returned tt, fs,
             [EvCheck (AppRepoOwner info) (AppName info) (AppVersion info);
              EvStdout (up_to_date_line info)])) as Hrun.
    { rewrite (Execute_has_update _ _ _ _ _ Hc).
      by rewrite (scanAssets_no_match _ _ _ _ _ Hno). }
    split; [exact Hrun|].
    intros env' release' cerr' Hc'.
    by rewrite Hrun, (Execute_without_update _ _ _ _ _ Hc').
  - intros pre a post Hassets Hpre Ha.
    assert (scanAssets (runtime env) release info (Assets release) (zeroAsset, false)
            = (a, true)) as Hscan.
    { rewrite Hassets. by apply scanAssets_first_match. }
    split; [exact Hscan|].
    rewrite (Execute_has_update _ _ _ _ _ Hc), Hscan. simpl negb. cbv iota.
    rewrite emit_bind, bind_run.
    destruct (downloadBinary env (BrowserDownloadURL a) info fs)
      as [[[downloadError|msg] fs1] ev1]; simpl.
    + destruct downloadError as [e|]; simpl; eauto.
    + exists []. by rewrite app_nil_r.
Qed.

Lemma Execute_no_matching_asset_witness :
  Execute Sample.no_asset Sample.info Sample.disk =
  (Returned tt, Sample.disk,
   [EvCheck "Heidelberger" "update" "v1.0.0";
    EvStdout (up_to_date_line Sample.info)])
  /\ scanAssets (runtime Sample.healthy) Sample.release Sample.info
       (Assets Sample.release) (zeroAsset, false)
     = (mkAsset "update-v1.2.0-linux-amd64.tar.gz" "https://example.org/linux", true).
Proof.
  split.
  - apply (Execute_no_matching_asset Sample.no_asset Sample.info Sample.disk
             Sample.foreign_release None eq_refl).
    repeat constructor; intros H; vm_compute in H; discriminate H.
  - apply (proj2 (Execute_no_matching_asset Sample.healthy Sample.info Sample.disk
                    Sample.release None eq_refl)
             [mkAsset "update-v1.2.0-darwin-arm64.tar.gz" "https://example.org/darwin"]
             (mkAsset "update-v1.2.0-linux-amd64.tar.gz" "https://example.org/linux")
             [mkAsset "update-v1.2.0-linux-amd64.tar.gz" "https://example.org/again"]
             eq_refl).
    + repeat constructor; intros H; vm_compute in H; discriminate H.
    + reflexivity.
Defined.

(** C3, as the code has it.  When the download step is reached and
    [downloadBinary] returns, [Execute] ends by printing the success line,
    whatever was returned; when a non-nil error was returned, the line
    printed just before it is "Error: " followed by the error's text. *)
Theorem Execute_after_download env info fs release cerr asset r fs1 ev1 :
  grc_Check env (AppRepoOwner info) (AppName info) (AppVersion info)
    = (true, release, cerr) ->
  scanAssets (runtime env) release info (Assets release) (zeroAsset, false)
    = (asset, true) ->
  downloadBinary env (BrowserDownloadURL asset) info fs = (Returned r, fs1, ev1) ->
  Execute env info fs =
  (Returned tt, fs1,
   EvCheck (AppRepoOwner info) (AppName info) (AppVersion info)
   :: ev1
   ++ match r with
      | Some e => [EvStdout ("Error: " +:+ Error e +:+ LF)]
      | None => []
      end
   ++ [EvStdout ("Now you have a fresh new " +:+ AppName info +:+ " \o/" +:+ LF)]).
Proof.
  intros Hc Hscan Hdl.
  rewrite (Execute_has_update _ _ _ _ _ Hc), Hscan. simpl negb. cbv iota.
  rewrite emit_bind, bind_run, Hdl.
  destruct r as [e|]; reflexivity.
Qed.

Lemma Execute_after_download_witness :
  Execute Sample.disk_full Sample.info Sample.disk =
  (Returned tt,
   fs_of (downloadBinary Sample.disk_full "https://example.org/linux"
            Sample.info Sample.disk),
   EvCheck "Heidelberger" "update" "v1.0.0"
   :: log_of (downloadBinary Sample.disk_full "https://example.org/linux"
                Sample.info Sample.disk)
   ++ [EvStdout ("Error: download error: no space left on device" +:+ LF)]
   ++ [EvStdout ("Now you have a fresh new update \o/" +:+ LF)]).
Proof.
  apply (Execute_after_download Sample.disk_full Sample.info Sample.disk
           Sample.release None
           (mkAsset "update-v1.2.0-linux-amd64.tar.gz" "https://example.org/linux")
           (Some (DownloadError "no space left on device")));
    reflexivity.
Defined.

(** C3, as stated, fails.  With an asset whose body is not a gzip stream
    the download step is reached, [downloadBinary] panics, and the success
    line is not printed. *)
Lemma success_after_download_counterexample :
  ~ success_after_download Sample.not_gzip Sample.info Sample.disk.
Proof.
  intros Hall.
  pose proof (Hall Sample.release None
                (mkAsset "update-v1.2.0-linux-amd64.tar.gz" "https://example.org/linux")
                eq_refl eq_refl) as Hin.
  vm_compute in Hin.
  repeat (apply elem_of_cons in Hin as [Hin|Hin]; [discriminate Hin|]).
  by apply elem_of_nil in Hin.
Qed.

(** A panic of [downloadBinary] is a panic of [Execute]: nothing is
    printed after it. *)
Lemma Execute_download_panics env info fs release cerr asset msg fs1 ev1 :
  grc_Check env (AppRepoOwner info) (AppName info) (AppVersion info)
    = (true, release, cerr) ->
  scanAssets (runtime env) release info (Assets release) (zeroAsset, false)
    = (asset, true) ->
  downloadBinary env (BrowserDownloadURL asset) info fs = (Panicked msg, fs1, ev1) ->
  Execute env info fs =
  (Panicked msg, fs1,
   EvCheck (AppRepoOwner info) (AppName info) (AppVersion info) :: ev1).
Proof.
  intros Hc Hscan Hdl.
  rewrite (Execute_has_update _ _ _ _ _ Hc), Hscan. simpl negb. cbv iota.
  by rewrite emit_bind, bind_run, Hdl.
Qed.

(** ** [downloadBinary] *)

Arguments CreateTemp_loop : simpl never.

(** Unfold the library calls and the monad. *)
Ltac unfold_download :=
  unfold downloadBinary, http_NewRequestWithContext, client_Do, gzip_NewReader,
    gzip_Close, Body_Close, tar_NewReader, tar_Next, osext_Executable,
    os_CreateTemp, io_Copy, file_Chmod, os_Rename, file_Close, file_Name,
    fmt_Println, defer, mbind, M_bind, bind, mret, M_ret, ret, emit, panic,
    get_fs, put_fs.

(** Use the answers of the environment recorded in the context. *)
Ltac use_answers :=
  repeat match goal with
         | H : ?f ?x = _ |- context [?f ?x] => rewrite H
         end.

(** One goal for each position of an explicit log. *)
Ltac split_each :=
  cbn [each_split app];
  repeat lazymatch goal with
         | |- _ /\ _ => split
         | |- True => exact I
         end.

(** Membership in an explicit log, case by case. *)
Ltac in_log H :=
  repeat (apply elem_of_cons in H as [H|H]; [try discriminate H|]);
  try (by apply elem_of_nil in H).

(** [os.CreateTemp] never hands out a name that is taken. *)
Lemma CreateTemp_loop_fresh env (fs : FS) dir pattern fuel n name :
  CreateTemp_loop env fs dir pattern n fuel = Ok name ->
  fs !! name = None /\ exists k, name = temp_name env dir pattern k.
Proof.
  revert n. induction fuel as [|fuel IH]; intros n; [discriminate|].
  unfold CreateTemp_loop; fold CreateTemp_loop.
  destruct (fs !! temp_name env dir pattern n) eqn:Hl; [apply IH|].
  destruct (open_fault env _); [discriminate|].
  intros [= <-]. eauto.
Qed.

Lemma run_eta {A} (r : Outcome A * FS * list Event) :
  r = (outcome_of r, fs_of r, log_of r).
Proof. by destruct r as [[o fs] log]. Qed.

Lemma fs_copied_lookup (fs : FS) tmp written :
  fs_copied fs tmp written !! tmp = Some (mkFile written (6 * 64)).
Proof.
  unfold fs_copied. by rewrite lookup_alter_eq, lookup_insert_eq.
Qed.

Lemma fs_chmoded_lookup (fs : FS) tmp written :
  fs_chmoded fs tmp written !! tmp = Some (mkFile written binaryChmodValue).
Proof.
  unfold fs_chmoded. by rewrite lookup_alter_eq, fs_copied_lookup.
Qed.

(** The copy touches the temporary file only. *)
Lemma fs_copied_other (fs : FS) tmp written p f :
  fs !! tmp = None -> fs !! p = Some f -> fs_copied fs tmp written !! p = Some f.
Proof.
  intros Htmp Hp. assert (tmp <> p) by congruence.
  unfold fs_copied. by rewrite lookup_alter_ne, lookup_insert_ne.
Qed.

(** A copy that ends without error has written the whole source, and the
    source ended with [io.EOF]. *)
Lemma copy_plan_complete env file src :
  (copy_plan env file src).2 = None ->
  (copy_plan env file src).1 = r_data src /\ r_err src = None.
Proof.
  unfold copy_plan. destruct (write_fault env file) as [[n e]|]; [|by auto].
  destruct (n <? length (r_data src))%nat; [discriminate | by auto].
Qed.

Lemma each_split_spec {A} (P : list A -> A -> list A -> Prop) (l pre0 : list A) :
  each_split P pre0 l ->
  forall pre x post, l = pre ++ x :: post -> P (pre0 ++ pre) x post.
Proof.
  revert pre0. induction l as [|y l IH]; intros pre0 Hl pre x post Heq.
  - by destruct pre.
  - destruct Hl as [Hy Hl]. destruct pre as [|z pre]; simplify_eq/=.
    + by rewrite app_nil_r.
    + specialize (IH _ Hl pre x post eq_refl).
      by rewrite <- app_assoc in IH.
Qed.

(** The run of [downloadBinary] as a decision tree over the answers of the
    environment. *)
Lemma downloadBinary_run env uri info fs :
  downloadBinary env uri info fs =
  let req := mkRequest MethodGet uri in
  match url_fault env uri with
  | Some m =>
      (Returned (Some (DownloadError m)), fs,
       [ev_download; EvNewRequest MethodGet uri (Some m)])
  | None =>
  match http_Do env req with
  | Err m =>
      (Returned (Some (DownloadError m)), fs,
       [ev_download; EvNewRequest MethodGet uri None; EvDo req (Some m)])
  | Ok response =>
  match gunzip env (Body response) with
  | Err m =>
      (Panicked nil_deref, fs,
       [ev_download; EvNewRequest MethodGet uri None; EvDo req None;
        EvGzipNewReader (Some m); ev_extract; EvClose HBody])
  | Ok z =>
  let opened :=
    [ev_download; EvNewRequest MethodGet uri None; EvDo req None;
     EvGzipNewReader None; ev_extract] in
  match entries (untar env z) with
  | [] =>
      (Returned (Some (DownloadError (default "EOF" (a_end (untar env z))))), fs,
       opened ++ [EvTarNext (Some (default "EOF" (a_end (untar env z))));
                  EvClose HGzip; EvClose HBody])
  | e :: _ =>
  let p := (executable env).1 in
  let dir := path_Dir env p in
  let located := opened ++ [EvTarNext None; EvExecutable p (executable env).2] in
  match CreateTemp_loop env fs dir (AppName info) 0 temp_attempts with
  | Err m =>
      (Returned (Some (DownloadError m)), fs,
       located ++ [EvCreateTemp dir (AppName info) (Some m);
                   EvClose HGzip; EvClose HBody])
  | Ok tmp =>
  let written := (copy_plan env tmp (e_body e)).1 in
  let created := located ++ [EvCreateTemp dir (AppName info) None] in
  let closes := [EvClose (HFile tmp); EvClose HGzip; EvClose HBody] in
  match (copy_plan env tmp (e_body e)).2 with
  | Some m =>
      (Returned (Some (DownloadError m)), fs_copied fs tmp written,
       created ++ EvCopy tmp written (Some m) :: closes)
  | None =>
  match chmod_fault env tmp with
  | Some m =>
      (Returned (Some (DownloadError m)), fs_copied fs tmp written,
       created ++ EvCopy tmp written None
               :: EvChmod tmp binaryChmodValue (Some m) :: closes)
  | None =>
  match rename_fault env tmp p with
  | Some m =>
      (Returned (Some (DownloadError m)), fs_chmoded fs tmp written,
       created ++ EvCopy tmp written None :: EvChmod tmp binaryChmodValue None
               :: EvRename tmp p (Some m) :: closes)
  | None =>
      (Returned None,
       <[p := mkFile written binaryChmodValue]> (delete tmp (fs_chmoded fs tmp written)),
       created ++ EvCopy tmp written None :: EvChmod tmp binaryChmodValue None
               :: EvRename tmp p None :: closes)
  end end end end end end end end.
Proof.
  unfold_download. cbv beta iota zeta.
  destruct (url_fault env uri) as [m|]; [reflexivity|].
  destruct (http_Do env _) as [response|m]; [|reflexivity].
  destruct (gunzip env _) as [z|m]; [|reflexivity].
  cbn [fmap option_fmap option_map tr_src err_of].
  destruct (entries (untar env z)) as [|e rest]; [reflexivity|].
  destruct (executable env) as [p perr]. cbn [fst snd].
  destruct (CreateTemp_loop _ _ _ _ _ _) as [tmp|m]; [|reflexivity].
  cbn [tr_curr].
  destruct (copy_plan env tmp (e_body e)) as [written cerr]. cbn [fst snd].
  destruct cerr as [m|]; [reflexivity|].
  destruct (chmod_fault env tmp) as [m|]; [reflexivity|].
  change (alter (set_mode binaryChmodValue) tmp
            (alter (append_data written) tmp (<[tmp:=mkFile [] (6 * 64)]> fs)))
    with (fs_chmoded fs tmp written).
  rewrite fs_chmoded_lookup.
  destruct (rename_fault env tmp p) as [m|]; reflexivity.
Qed.

(** Split a run on the answers of the environment, leaves first
    simplified. *)
Ltac download_cases Hrun :=
  rewrite downloadBinary_run in Hrun; cbv zeta in Hrun;
  repeat match type of Hrun with
         | context [match ?x with _ => _ end] => destruct x eqn:?
         end;
  cbn [app] in Hrun; simplify_eq.

(** C4. When the archive fetched has no entry, [Next] fails and
    [downloadBinary] returns its error as a Download error; by then it has
    created no temporary file and renamed nothing, and the file system is
    as it was. *)
Theorem empty_archive_is_download_error env uri info fs a :
  archive_at env uri = Some a ->
  entries a = [] ->
  downloadBinary env uri info fs =
  (Returned (Some (DownloadError (default "EOF" (a_end a)))), fs,
   [ev_download; EvNewRequest MethodGet uri None;
    EvDo (mkRequest MethodGet uri) None; EvGzipNewReader None; ev_extract;
    EvTarNext (Some (default "EOF" (a_end a))); EvClose HGzip; EvClose HBody])
  /\ forallb (fun ev => negb (is_create_temp ev) && negb (is_rename ev))
       (log_of (downloadBinary env uri info fs)) = true.
Proof.
  unfold archive_at. intros Ha He.
  rewrite downloadBinary_run. cbv zeta.
  destruct (url_fault env uri); [discriminate|].
  destruct (http_Do env _) as [response|]; [|discriminate].
  destruct (gunzip env _) as [z|]; [|discriminate].
  simplify_eq. rewrite He. split; reflexivity.
Qed.

Lemma empty_archive_is_download_error_witness :
  downloadBinary Sample.no_entries "https://example.org/linux" Sample.info Sample.disk
  = (Returned (Some (DownloadError "EOF")), Sample.disk,
     [ev_download; EvNewRequest MethodGet "https://example.org/linux" None;
      EvDo (mkRequest MethodGet "https://example.org/linux") None;
      EvGzipNewReader None; ev_extract; EvTarNext (Some "EOF");
      EvClose HGzip; EvClose HBody]).
Proof.
  apply (empty_archive_is_download_error Sample.no_entries
           "https://example.org/linux" Sample.info Sample.disk Sample.empty_tar);
    reflexivity.
Defined.

(** C1. In a run whose copy into the temporary file fails, the error
    returned is that failure, no rename is made, and every file that
    existed before the run, the running executable among them, is still
    there with the same content and mode.  In any run, a rename is
    preceded by a copy that ended without error and wrote every byte of
    the archive's first entry to the file being renamed. *)
Theorem copy_failure_never_renames env uri info fs o fs' log :
  downloadBinary env uri info fs = (o, fs', log) ->
  (forall dst written m,
      EvCopy dst written (Some m) ∈ log ->
      o = Returned (Some (DownloadError m))
      /\ forallb (fun ev => negb (is_rename ev)) log = true
      /\ forall p f, fs !! p = Some f -> fs' !! p = Some f)
  /\ (forall pre old new err post,
      log = pre ++ EvRename old new err :: post ->
      exists a e rest,
        archive_at env uri = Some a /\ entries a = e :: rest
        /\ r_err (e_body e) = None
        /\ EvCopy old (r_data (e_body e)) None ∈ pre).
Proof.
  intros Hrun. download_cases Hrun.
  all: split;
    [ intros dst written m Hin; in_log Hin
    | intros pre old new err post Heq;
      refine (each_split_spec
                (fun pre x post => forall old new err, x = EvRename old new err ->
                   exists a e rest,
                     archive_at env uri = Some a /\ entries a = e :: rest
                     /\ r_err (e_body e) = None
                     /\ EvCopy old (r_data (e_body e)) None ∈ pre)
                _ [] _ pre _ post Heq old new err eq_refl);
      split_each; intros ? ? ? [=]; subst ].
  - (* the copy failed *)
    simplify_eq. split; [reflexivity|]. split; [reflexivity|].
    intros p f Hp.
    match goal with
    | H : CreateTemp_loop _ _ _ _ _ _ = Ok _ |- _ =>
        apply CreateTemp_loop_fresh in H as [Hfresh _]
    end.
    by apply fs_copied_other.
  - (* the rename failed *)
    match goal with
    | H : (copy_plan _ _ _).2 = None |- _ =>
        destruct (copy_plan_complete _ _ _ H) as [Hw He]
    end.
    eexists _, _, _. unfold archive_at. use_answers.
    split; [reflexivity|]. split; [eassumption|]. split; [exact He|].
    set_solver.
  - (* the rename succeeded *)
    match goal with
    | H : (copy_plan _ _ _).2 = None |- _ =>
        destruct (copy_plan_complete _ _ _ H) as [Hw He]
    end.
    eexists _, _, _. unfold archive_at. use_answers.
    split; [reflexivity|]. split; [eassumption|]. split; [exact He|].
    set_solver.
Qed.

Lemma copy_failure_never_renames_witness :
  (outcome_of (downloadBinary Sample.disk_full "https://example.org/linux"
                 Sample.info Sample.disk)
   = Returned (Some (DownloadError "no space left on device"))
   /\ fs_of (downloadBinary Sample.disk_full "https://example.org/linux"
               Sample.info Sample.disk) !! Sample.exe
      = Some (mkFile Sample.old_binary binaryChmodValue))
  /\ exists a e rest,
      archive_at Sample.healthy "https://example.org/linux" = Some a
      /\ entries a = e :: rest /\ r_err (e_body e) = None
      /\ EvCopy "/usr/local/bin/update0" (r_data (e_body e)) None
         ∈ firstn 10 (log_of (downloadBinary Sample.healthy "https://example.org/linux"
                                Sample.info Sample.disk)).
Proof.
  split.
  - destruct (copy_failure_never_renames Sample.disk_full "https://example.org/linux"
                Sample.info Sample.disk _ _ _ (run_eta _)) as [Hfail _].
    destruct (Hfail "/usr/local/bin/update0" (firstn 4 Sample.new_binary)
                "no space left on device") as (Ho & _ & Hfs).
    + vm_compute. repeat constructor.
    + split; [exact Ho|]. apply Hfs. reflexivity.
  - destruct (copy_failure_never_renames Sample.healthy "https://example.org/linux"
                Sample.info Sample.disk _ _ _ (run_eta _)) as [_ Hrename].
    apply (Hrename _ "/usr/local/bin/update0" Sample.exe None
             (skipn 11 (log_of (downloadBinary Sample.healthy
                                  "https://example.org/linux" Sample.info Sample.disk)))).
    reflexivity.
Defined.

(** C2, as the code has it.  A failure of request construction, of the
    HTTP request, of the tar entry read, of the creation of the temporary
    file, of the copy, of chmod or of the rename is returned at once as a
    Download error with the failure's text, and only the deferred closes
    come after it; an error that is returned is always a Download error.
    The error of the executable-path resolution is not returned: the
    creation of the temporary file, in the directory of the path that came
    with it, is the next call. *)
Theorem checked_failure_is_returned env uri info fs o fs' log :
  downloadBinary env uri info fs = (o, fs', log) ->
  (forall pre ev post m,
      log = pre ++ ev :: post ->
      ev_checked_err ev = Some m ->
      o = Returned (Some (DownloadError m)) /\ forallb is_close post = true)
  /\ (forall e, o = Returned (Some e) -> exists m, e = DownloadError m)
  /\ (forall pre p m post,
      log = pre ++ EvExecutable p (Some m) :: post ->
      exists cerr post',
        post = EvCreateTemp (path_Dir env p) (AppName info) cerr :: post').
Proof.
  intros Hrun.
  assert (each_split (fun _ ev post => forall m, ev_checked_err ev = Some m ->
            o = Returned (Some (DownloadError m)) /\ forallb is_close post = true)
            [] log
          /\ (forall e, o = Returned (Some e) -> exists m, e = DownloadError m)
          /\ each_split (fun _ ev post => forall p m, ev = EvExecutable p (Some m) ->
               exists cerr post',
                 post = EvCreateTemp (path_Dir env p) (AppName info) cerr :: post')
               [] log) as (Hchecked & Hwrapped & Hexec).
  { download_cases Hrun.
    all: split; [|split]; [split_each | intros e' [=]; eauto | split_each].
    all: try (intros m' Hm; cbn in Hm; simplify_eq; split; reflexivity).
    all: intros p' m' [=]; subst; eauto. }
  split; [|split].
  - intros pre ev post m Heq. exact (each_split_spec _ _ _ Hchecked pre ev post Heq m).
  - exact Hwrapped.
  - intros pre p m post Heq.
    exact (each_split_spec _ _ _ Hexec pre _ post Heq p m eq_refl).
Qed.

Lemma checked_failure_is_returned_witness :
  outcome_of (downloadBinary Sample.disk_full "https://example.org/linux"
                Sample.info Sample.disk)
  = Returned (Some (DownloadError "no space left on device"))
  /\ exists cerr post',
      skipn 7 (log_of (downloadBinary Sample.self_unknown "https://example.org/linux"
                         Sample.info Sample.disk))
      = EvCreateTemp "." "update" cerr :: post'.
Proof.
  split.
  - destruct (checked_failure_is_returned Sample.disk_full "https://example.org/linux"
                Sample.info Sample.disk _ _ _ (run_eta _)) as [Hchecked _].
    apply (Hchecked
             (firstn 8 (log_of (downloadBinary Sample.disk_full
                                  "https://example.org/linux" Sample.info Sample.disk)))
             (EvCopy "/usr/local/bin/update0" (firstn 4 Sample.new_binary)
                (Some "no space left on device"))
             (skipn 9 (log_of (downloadBinary Sample.disk_full
                                 "https://example.org/linux" Sample.info Sample.disk))));
      reflexivity.
  - destruct (checked_failure_is_returned Sample.self_unknown "https://example.org/linux"
                Sample.info Sample.disk _ _ _ (run_eta _)) as (_ & _ & Hexec).
    apply (Hexec
             (firstn 6 (log_of (downloadBinary Sample.self_unknown
                                  "https://example.org/linux" Sample.info Sample.disk)))
             "." "readlink /proc/self/exe: no such file or directory").
    reflexivity.
Defined.

(** C2, as stated, fails.  When the resolution of the executable's path
    fails, the run goes on through four more calls and what it returns in
    the end is the error of the rename; when the gzip stream cannot be
    opened, the run panics. *)
Lemma every_failure_returned_counterexample :
  ~ every_failure_returned Sample.self_unknown "https://example.org/linux"
      Sample.info Sample.disk
  /\ ~ every_failure_returned Sample.not_gzip "https://example.org/linux"
        Sample.info Sample.disk.
Proof.
  split; intros [Hall Hpanic].
  - destruct (Hall
                (firstn 6 (log_of (downloadBinary Sample.self_unknown
                                     "https://example.org/linux" Sample.info Sample.disk)))
                (EvExecutable "."
                   (Some "readlink /proc/self/exe: no such file or directory"))
                (skipn 7 (log_of (downloadBinary Sample.self_unknown
                                    "https://example.org/linux" Sample.info Sample.disk)))
                "readlink /proc/self/exe: no such file or directory"
                eq_refl eq_refl) as [Ho _].
    vm_compute in Ho. discriminate Ho.
  - vm_compute in Hpanic. discriminate Hpanic.
Qed.

(** C8. A run that returns nil has made its file system calls in this
    order: the temporary file is created in the directory of the current
    executable with the app name as pattern, the first entry of the
    archive is copied into it, its mode is set to 0755, and then it is
    renamed onto the executable's path; the closes come last.  Afterwards
    the executable's path holds the entry's bytes with mode 0755. *)
Theorem success_path_order env uri info fs fs' log :
  downloadBinary env uri info fs = (Returned None, fs', log) ->
  exists a e rest tmp k,
    archive_at env uri = Some a /\ entries a = e :: rest
    /\ tmp = temp_name env (path_Dir env (executable env).1) (AppName info) k
    /\ fs !! tmp = None
    /\ log =
       [ev_download; EvNewRequest MethodGet uri None;
        EvDo (mkRequest MethodGet uri) None; EvGzipNewReader None; ev_extract;
        EvTarNext None; EvExecutable (executable env).1 (executable env).2;
        EvCreateTemp (path_Dir env (executable env).1) (AppName info) None;
        EvCopy tmp (r_data (e_body e)) None;
        EvChmod tmp binaryChmodValue None;
        EvRename tmp (executable env).1 None;
        EvClose (HFile tmp); EvClose HGzip; EvClose HBody]
    /\ binaryChmodValue = 493%Z
    /\ fs' !! (executable env).1 = Some (mkFile (r_data (e_body e)) binaryChmodValue)
    /\ (tmp <> (executable env).1 -> fs' !! tmp = None).
Proof.
  intros Hrun. download_cases Hrun.
  match goal with
  | H : (copy_plan _ _ _).2 = None |- _ =>
      destruct (copy_plan_complete _ _ _ H) as [Hw He]
  end.
  match goal with
  | H : CreateTemp_loop _ _ _ _ _ _ = Ok _ |- _ =>
      apply CreateTemp_loop_fresh in H as [Hfresh [k Hk]]
  end.
  eexists _, _, _, _, k. unfold archive_at. use_answers.
  split; [reflexivity|]. split; [eassumption|]. split; [exact Hk|].
  split; [exact Hfresh|]. split; [reflexivity|]. split; [reflexivity|].
  split.
  - by rewrite lookup_insert_eq.
  - intros Hne. by rewrite lookup_insert_ne, lookup_delete_eq.
Qed.

Lemma success_path_order_witness :
  exists a e rest tmp k,
    archive_at Sample.healthy "https://example.org/linux" = Some a
    /\ entries a = e :: rest
    /\ tmp = temp_name Sample.healthy
               (path_Dir Sample.healthy (executable Sample.healthy).1)
               (AppName Sample.info) k
    /\ Sample.disk !! tmp = None
    /\ log_of (downloadBinary Sample.healthy "https://example.org/linux"
                 Sample.info Sample.disk) =
       [ev_download; EvNewRequest MethodGet "https://example.org/linux" None;
        EvDo (mkRequest MethodGet "https://example.org/linux") None;
        EvGzipNewReader None; ev_extract;
        EvTarNext None;
        EvExecutable (executable Sample.healthy).1 (executable Sample.healthy).2;
        EvCreateTemp (path_Dir Sample.healthy (executable Sample.healthy).1)
          (AppName Sample.info) None;
        EvCopy tmp (r_data (e_body e)) None;
        EvChmod tmp binaryChmodValue None;
        EvRename tmp (executable Sample.healthy).1 None;
        EvClose (HFile tmp); EvClose HGzip; EvClose HBody]
    /\ binaryChmodValue = 493%Z
    /\ fs_of (downloadBinary Sample.healthy "https://example.org/linux"
                Sample.info Sample.disk) !! (executable Sample.healthy).1
       = Some (mkFile (r_data (e_body e)) binaryChmodValue)
    /\ (tmp <> (executable Sample.healthy).1 ->
        fs_of (downloadBinary Sample.healthy "https://example.org/linux"
                 Sample.info Sample.disk) !! tmp = None).
Proof.
  apply (success_path_order Sample.healthy "https://example.org/linux"
           Sample.info Sample.disk).
  vm_compute. reflexivity.
Defined.

(** C9 fails on the code.  [gzip.NewReader] reads the gzip header when it
    is called; when the body does not start with one it answers a nil
    reader and an error.  [downloadBinary] drops that error, and the first
    read through the nil reader, in [Next], panics: nothing is returned. *)
Theorem gzip_open_failure_panics :
  downloadBinary Sample.not_gzip "https://example.org/linux" Sample.info Sample.disk
  = (Panicked nil_deref, Sample.disk,
     [ev_download; EvNewRequest MethodGet "https://example.org/linux" None;
      EvDo (mkRequest MethodGet "https://example.org/linux") None;
      EvGzipNewReader (Some "gzip: invalid header"); ev_extract; EvClose HBody]).
Proof. reflexivity. Qed.

(** The same for every world in which the gzip stream fails to open. *)
Lemma gzip_open_failure_panics_always env uri info fs response m :
  url_fault env uri = None ->
  http_Do env (mkRequest MethodGet uri) = Ok response ->
  gunzip env (Body response) = Err m ->
  outcome_of (downloadBinary env uri info fs) = Panicked nil_deref.
Proof.
  intros Hu Hd Hg. rewrite downloadBinary_run. cbv zeta. by rewrite Hu, Hd, Hg.
Qed.

Lemma CreateTemp_loop_set_executable x env (fs : FS) dir pattern n fuel :
  CreateTemp_loop (set_executable x env) fs dir pattern n fuel
  = CreateTemp_loop env fs dir pattern n fuel.
Proof.
  revert n. induction fuel as [|fuel IH]; intros n; [reflexivity|].
  unfold CreateTemp_loop; fold CreateTemp_loop.
  cbn [set_executable temp_name open_fault]. by rewrite IH.
Qed.

Lemma copy_plan_set_executable x env file src :
  copy_plan (set_executable x env) file src = copy_plan env file src.
Proof. reflexivity. Qed.

(** C10. The error that comes with the executable's path is dropped: with
    the same path and any two errors (nil or not) the run returns the same
    value and leaves the same file system, and its log differs in the
    answer of that one call only.  After that call the temporary file is
    created in the directory of the path answered, and a rename, if one is
    made, has that path as its target. *)
Theorem executable_error_is_discarded env uri info fs p e1 e2 :
  outcome_of (downloadBinary (set_executable (p, e1) env) uri info fs)
  = outcome_of (downloadBinary (set_executable (p, e2) env) uri info fs)
  /\ fs_of (downloadBinary (set_executable (p, e1) env) uri info fs)
     = fs_of (downloadBinary (set_executable (p, e2) env) uri info fs)
  /\ log_of (downloadBinary (set_executable (p, e2) env) uri info fs)
     = map (with_exec_err e2)
           (log_of (downloadBinary (set_executable (p, e1) env) uri info fs))
  /\ forall pre post,
      log_of (downloadBinary (set_executable (p, e1) env) uri info fs)
      = pre ++ EvExecutable p e1 :: post ->
      exists cerr post',
        post = EvCreateTemp (path_Dir env p) (AppName info) cerr :: post'
        /\ forall old new rerr, EvRename old new rerr ∈ post -> new = p.
Proof.
  rewrite !downloadBinary_run. cbv zeta.
  rewrite !CreateTemp_loop_set_executable.
  cbn [set_executable url_fault http_Do gunzip untar executable path_Dir
       chmod_fault rename_fault fst snd].
  assert (forall (l : list Event) (P : list Event -> Prop),
             each_split (fun _ ev post => ev = EvExecutable p e1 -> P post) [] l ->
             forall pre post, l = pre ++ EvExecutable p e1 :: post -> P post)
    as Hsplit.
  { intros l P Hl pre post Heq.
    exact (each_split_spec _ _ _ Hl pre _ post Heq eq_refl). }
  destruct (url_fault env uri) as [m|].
  2: destruct (http_Do env _) as [response|m].
  2: destruct (gunzip env _) as [z|m].
  2: destruct (entries (untar env z)) as [|e rest].
  3: destruct (CreateTemp_loop _ _ _ _ _ _) as [tmp|m].
  3: rewrite !copy_plan_set_executable;
     destruct (copy_plan env tmp (e_body e)) as [written [m|]]; cbn [fst snd].
  4: destruct (chmod_fault env tmp) as [m|].
  5: destruct (rename_fault env tmp p) as [m|].
  all: split; [reflexivity|]; split; [reflexivity|]; split; [reflexivity|].
  all: cbn [log_of snd app]; apply Hsplit; split_each; intros [=]; subst.
  all: eexists _, _; split; [reflexivity|].
  all: intros old new rerr Hin; in_log Hin; by simplify_eq.
Qed.

Lemma executable_error_is_discarded_witness :
  outcome_of (downloadBinary (set_executable (".", None) Sample.self_unknown)
                "https://example.org/linux" Sample.info Sample.disk)
  = outcome_of (downloadBinary Sample.self_unknown
                  "https://example.org/linux" Sample.info Sample.disk)
  /\ exists cerr post',
      skipn 7 (log_of (downloadBinary Sample.self_unknown "https://example.org/linux"
                         Sample.info Sample.disk))
      = EvCreateTemp "." "update" cerr :: post'
      /\ forall old new rerr,
          EvRename old new rerr
          ∈ skipn 7 (log_of (downloadBinary Sample.self_unknown
                               "https://example.org/linux" Sample.info Sample.disk)) ->
          new = ".".
Proof.
  destruct (executable_error_is_discarded Sample.self_unknown
              "https://example.org/linux" Sample.info Sample.disk "."
              (Some "readlink /proc/self/exe: no such file or directory") None)
    as (Ho & _ & _ & Hnext).
  split; [symmetry; exact Ho|].
  apply (Hnext (firstn 6 (log_of (downloadBinary Sample.self_unknown
                                    "https://example.org/linux" Sample.info Sample.disk)))).
  reflexivity.
Defined.

(** * Further properties of main.go *)

(** ** The error types *)

Lemma Error_ImportError (m : string) :
  Error (ImportError m) = "import error: " +:+ m.
Proof. simpl. by rewrite append_empty. Qed.

Lemma Error_GenerateError (m : string) :
  Error (GenerateError m) = "generate error: " +:+ m.
Proof. simpl. by rewrite append_empty. Qed.

Lemma Error_DeleteError (m : string) :
  Error (DeleteError m) = "delete error: " +:+ m.
Proof. simpl. by rewrite append_empty. Qed.

(** X1. The text of an error tells its kind and its message: two error
    values with the same [Error()] text are the same value. *)
Theorem Error_inj (e1 e2 : error) : Error e1 = Error e2 -> e1 = e2.
Proof.
  destruct e1 as [m1|m1|m1|m1], e2 as [m2|m2|m2|m2]; intros H; simpl in H;
    try discriminate H; simplify_eq; rewrite !append_empty in *; by subst.
Qed.

Lemma Error_inj_witness : DownloadError "EOF" = DownloadError ("E" +:+ "OF").
Proof. apply Error_inj. reflexivity. Defined.

(** ** [buildFilename] *)

Lemma append_assoc (s1 s2 s3 : string) : (s1 +:+ s2) +:+ s3 = s1 +:+ (s2 +:+ s3).
Proof.
  induction s1 as [|c s1 IH]; [reflexivity|].
  change (String c ((s1 +:+ s2) +:+ s3) = String c (s1 +:+ (s2 +:+ s3))).
  by rewrite IH.
Qed.

Lemma length_append (s1 s2 : string) :
  String.length (s1 +:+ s2) = (String.length s1 + String.length s2)%nat.
Proof.
  induction s1 as [|c s1 IH]; [reflexivity|].
  change (S (String.length (s1 +:+ s2)) = S (String.length s1 + String.length s2)).
  by rewrite IH.
Qed.

Lemma append_cancel_r (s1 s2 t : string) : s1 +:+ t = s2 +:+ t -> s1 = s2.
Proof.
  revert s2. induction s1 as [|c s1 IH]; intros [|d s2] H.
  - reflexivity.
  - apply (f_equal String.length) in H. rewrite !length_append in H.
    cbn [String.length] in H. lia.
  - apply (f_equal String.length) in H. rewrite !length_append in H.
    cbn [String.length] in H. lia.
  - change (String c (s1 +:+ t) = String d (s2 +:+ t)) in H.
    injection H as -> H. by rewrite (IH _ H).
Qed.

Lemma buildFilename_eq rt version info :
  buildFilename rt version info =
  AppName info +:+ "-" +:+ version +:+ "-" +:+ GOOS rt +:+ "-" +:+ GOARCH rt +:+ ".tar.gz".
Proof. unfold buildFilename. rewrite !Sprintf_s. reflexivity. Qed.

(** X2. For one app and one platform the expected file name determines the
    tag, and for one tag and one platform it determines the app name: an
    asset built for another tag of the same app, or for another app at the
    same tag, has another name. *)
Theorem buildFilename_inj rt info info' version version' :
  buildFilename rt version info = buildFilename rt version' info' ->
  (AppName info = AppName info' -> version = version')
  /\ (version = version' -> AppName info = AppName info').
Proof.
  rewrite !buildFilename_eq. intros H. split.
  - intros Hn. rewrite Hn in H.
    apply (inj (String.app _)), (inj (String.app _)) in H.
    by apply append_cancel_r in H.
  - intros ->. by apply append_cancel_r in H.
Qed.

Lemma buildFilename_inj_witness :
  ("v1." +:+ "2.0" = "v1.2.0")
  /\ AppName (newInfos "Heidelberger" "update" "v1.0.0")
     = AppName (newInfos "someone" "update" "v0.9.0").
Proof.
  destruct (buildFilename_inj (mkRuntime "linux" "amd64")
              (newInfos "Heidelberger" "update" "v1.0.0")
              (newInfos "someone" "update" "v0.9.0")
              ("v1." +:+ "2.0") "v1.2.0" eq_refl) as [Hv Hn].
  split; [apply Hv | apply Hn]; reflexivity.
Defined.

(** X3. The file name does not separate the app name from the tag: a part
    between two dashes can belong to either. *)
Theorem buildFilename_dash_ambiguity rt x y z owner ver owner' ver' :
  buildFilename rt z (newInfos owner (x +:+ "-" +:+ y) ver)
  = buildFilename rt (y +:+ "-" +:+ z) (newInfos owner' x ver').
Proof.
  rewrite !buildFilename_eq. cbn [AppName newInfos].
  by rewrite !append_assoc.
Qed.

(** ** The asset scan *)

(** X4. What the loop of [Execute] leaves in its two variables: either
    found is true and the asset is the first of the list that bears the
    expected name, or found is false, the asset is still the zero value
    and no asset of the list bears that name. *)
Theorem scanAssets_spec rt release info assets :
  match scanAssets rt release info assets (zeroAsset, false) with
  | (a, true) =>
      exists pre post,
        assets = pre ++ a :: post
        /\ Name a = buildFilename rt (TagName release) info
        /\ Forall (fun b => Name b <> buildFilename rt (TagName release) info) pre
  | (a, false) =>
      a = zeroAsset
      /\ Forall (fun b => Name b <> buildFilename rt (TagName release) info) assets
  end.
Proof.
  induction assets as [|b assets IH]; simpl; [by split|].
  destruct (String.eqb_spec (Name b) (buildFilename rt (TagName release) info))
    as [Hb|Hb].
  - exists [], assets. by repeat split.
  - destruct (scanAssets rt release info assets (zeroAsset, false)) as [a [|]].
    + destruct IH as (pre & post & -> & Ha & Hpre).
      exists (b :: pre), post. repeat split; [done|]. by constructor.
    + destruct IH as [-> Hall]. split; [done|]. by constructor.
Qed.

(** ** What a run depends on *)

Lemma CreateTemp_loop_ext env env' (fs : FS) dir pattern n fuel :
  temp_name env = temp_name env' ->
  open_fault env = open_fault env' ->
  CreateTemp_loop env fs dir pattern n fuel
  = CreateTemp_loop env' fs dir pattern n fuel.
Proof.
  intros Ht Ho. revert n. induction fuel as [|fuel IH]; intros n; [reflexivity|].
  unfold CreateTemp_loop; fold CreateTemp_loop. by rewrite Ht, Ho, IH.
Qed.

(** [downloadBinary] reads neither the build constants nor the release
    check, and of the tar decoder only what it is applied to. *)
Lemma downloadBinary_ext env env' uri info fs :
  url_fault env = url_fault env' ->
  http_Do env = http_Do env' ->
  gunzip env = gunzip env' ->
  untar env = untar env' ->
  executable env = executable env' ->
  path_Dir env = path_Dir env' ->
  temp_name env = temp_name env' ->
  open_fault env = open_fault env' ->
  write_fault env = write_fault env' ->
  chmod_fault env = chmod_fault env' ->
  rename_fault env = rename_fault env' ->
  downloadBinary env uri info fs = downloadBinary env' uri info fs.
Proof.
  intros Hu Hd Hg Ht Hx Hp Hn Ho Hw Hc Hr.
  rewrite !downloadBinary_run. cbv zeta. unfold copy_plan.
  rewrite (CreateTemp_loop_ext env env') by assumption.
  by rewrite Hu, Hd, Hg, Ht, Hx, Hp, Hw, Hc, Hr.
Qed.

Lemma count_events_app p (l1 l2 : list Event) :
  count_events p (l1 ++ l2) = (count_events p l1 + count_events p l2)%nat.
Proof. induction l1 as [|ev l1 IH]; simpl; [reflexivity | rewrite IH; lia]. Qed.

(** Split the decision tree of a run that stands in the goal. *)
Ltac run_cases :=
  rewrite ?downloadBinary_run; cbv zeta;
  repeat match goal with
         | |- context [match ?x with _ => _ end] => destruct x eqn:?
         end.

(** A run of [downloadBinary] asks for no release check and sends at most
    one request. *)
Lemma downloadBinary_counts env uri info fs :
  count_events is_check (log_of (downloadBinary env uri info fs)) = 0%nat
  /\ (count_events is_do (log_of (downloadBinary env uri info fs)) <= 1)%nat.
Proof. run_cases; cbn; split; lia. Qed.

(** ** [Execute] as a whole *)

(** X5. [Execute] never looks at the error of the release check: with any
    other error in its place, nil or not, the run is the same. *)
Theorem Execute_ignores_check_error env info fs e :
  Execute (set_check (with_check_err e (grc_Check env)) env) info fs
  = Execute env info fs.
Proof.
  unfold Execute. cbn [set_check grc_Check runtime]. unfold with_check_err.
  destruct (grc_Check env (AppRepoOwner info) (AppName info) (AppVersion info))
    as [[hasUpdate release] cerr].
  cbn [fst snd]. destruct hasUpdate; simpl negb; cbv iota; [|reflexivity].
  destruct (scanAssets (runtime env) release info (Assets release) (zeroAsset, false))
    as [assetToDownload [|]]; simpl negb; cbv iota; [|reflexivity].
  rewrite !emit_bind, !bind_run.
  by rewrite (downloadBinary_ext
                (set_check (with_check_err e (grc_Check env)) env) env).
Qed.

(** X6. With no update to fetch, running [Execute] again changes nothing:
    two runs in a row print the up-to-date line twice, after one check
    each, and leave the file system as it was. *)
Theorem Execute_twice_no_update env info fs release cerr :
  grc_Check env (AppRepoOwner info) (AppName info) (AppVersion info)
    = (false, release, cerr) ->
  (Execute env info ;; Execute env info) fs =
  (Returned tt, fs,
   [EvCheck (AppRepoOwner info) (AppName info) (AppVersion info);
    EvStdout (up_to_date_line info);
    EvCheck (AppRepoOwner info) (AppName info) (AppVersion info);
    EvStdout (up_to_date_line info)]).
Proof.
  intros Hc. by rewrite bind_run, !(Execute_without_update _ _ _ _ _ Hc).
Qed.

Lemma Execute_twice_no_update_witness :
  (Execute Sample.up_to_date Sample.info ;; Execute Sample.up_to_date Sample.info)
    Sample.disk =
  (Returned tt, Sample.disk,
   [EvCheck "Heidelberger" "update" "v1.0.0";
    EvStdout (up_to_date_line Sample.info);
    EvCheck "Heidelberger" "update" "v1.0.0";
    EvStdout (up_to_date_line Sample.info)]).
Proof.
  apply (Execute_twice_no_update Sample.up_to_date Sample.info Sample.disk
           Sample.release None).
  reflexivity.
Defined.

(** X7. A run of [Execute] makes exactly one release check, as its first
    call, and sends at most one HTTP request: nothing is retried. *)
Theorem Execute_one_check_one_request env info fs :
  (exists rest,
      log_of (Execute env info fs)
      = EvCheck (AppRepoOwner info) (AppName info) (AppVersion info) :: rest)
  /\ count_events is_check (log_of (Execute env info fs)) = 1%nat
  /\ (count_events is_do (log_of (Execute env info fs)) <= 1)%nat.
Proof.
  destruct (grc_Check env (AppRepoOwner info) (AppName info) (AppVersion info))
    as [[[|] release] cerr] eqn:Hc.
  2: { rewrite (Execute_without_update _ _ _ _ _ Hc).
       cbn [log_of snd count_events is_check is_do]. eauto. }
  rewrite (Execute_has_update _ _ _ _ _ Hc).
  destruct (scanAssets (runtime env) release info (Assets release) (zeroAsset, false))
    as [asset [|]]; simpl negb; cbv iota.
  2: { rewrite emit_bind. cbn [emit log_of snd count_events is_check is_do]. eauto. }
  rewrite emit_bind, bind_run.
  destruct (downloadBinary_counts env (BrowserDownloadURL asset) info fs)
    as [Hchecks Hdos].
  destruct (downloadBinary env (BrowserDownloadURL asset) info fs)
    as [[[[e|]|msg] fs1] ev1];
    cbn [log_of snd] in Hchecks, Hdos;
    cbv beta iota delta [mbind M_bind bind emit ret log_of snd];
    cbn [app count_events is_check is_do]; rewrite ?count_events_app;
    cbn [app count_events is_check is_do].
  all: (split; [eauto|]); split; lia.
Qed.

(** ** [downloadBinary] and the file system *)

Lemma temp_attempts_succ : temp_attempts = S (Nat.pred temp_attempts).
Proof. unfold temp_attempts. lia. Qed.

(** A free first name is the one [os.CreateTemp] takes. *)
Lemma CreateTemp_loop_first env (fs : FS) dir pattern :
  fs !! temp_name env dir pattern 0 = None ->
  open_fault env (temp_name env dir pattern 0) = None ->
  CreateTemp_loop env fs dir pattern 0 temp_attempts
  = Ok (temp_name env dir pattern 0).
Proof.
  intros Hfree Hopen. rewrite temp_attempts_succ.
  unfold CreateTemp_loop; fold CreateTemp_loop. by rewrite Hfree, Hopen.
Qed.

Lemma fs_chmoded_other (fs : FS) tmp written p f :
  fs !! tmp = None -> fs !! p = Some f -> fs_chmoded fs tmp written !! p = Some f.
Proof.
  intros Htmp Hp. assert (tmp <> p) by congruence.
  unfold fs_chmoded. rewrite lookup_alter_ne by done. by apply fs_copied_other.
Qed.

Lemma delete_fs_chmoded (fs : FS) tmp written :
  fs !! tmp = None -> delete tmp (fs_chmoded fs tmp written) = fs.
Proof.
  intros Htmp. unfold fs_chmoded, fs_copied.
  by rewrite !delete_alter_eq, delete_insert_eq, delete_id.
Qed.

(** A file that was there before the run is there after it, unless the
    run returned nil and the file is the executable's. *)
Lemma downloadBinary_keeps env uri info (fs : FS) p f :
  fs !! p = Some f ->
  outcome_of (downloadBinary env uri info fs) <> Returned None
  \/ p <> (executable env).1 ->
  fs_of (downloadBinary env uri info fs) !! p = Some f.
Proof.
  intros Hp Hor.
  destruct (downloadBinary env uri info fs) as [[o fs'] log] eqn:Hrun.
  cbn [outcome_of fs_of fst snd] in *.
  download_cases Hrun; try exact Hp;
    match goal with
    | H : CreateTemp_loop _ _ _ _ _ _ = Ok _ |- _ =>
        apply CreateTemp_loop_fresh in H as [Hfresh _]
    end.
  1, 2: by apply fs_copied_other.
  1: by apply fs_chmoded_other.
  destruct Hor as [Hor|Hor]; [done|].
  rewrite lookup_insert_ne by done.
  rewrite lookup_delete_ne by congruence.
  by apply fs_chmoded_other.
Qed.

(** X9. In a world without faults the update is installed: when the
    archive fetched has a first entry that reads to its end, the first
    temporary name is free and creating, writing, chmod and rename do not
    fail, [downloadBinary] returns nil and the file system afterwards is
    the one before with the entry's bytes, mode 0755, at the executable's
    path; no temporary file remains. *)
Theorem download_installs_first_entry env uri info (fs : FS) a e rest p tmp :
  p = (executable env).1 ->
  tmp = temp_name env (path_Dir env p) (AppName info) 0 ->
  archive_at env uri = Some a ->
  entries a = e :: rest ->
  r_err (e_body e) = None ->
  fs !! tmp = None ->
  open_fault env tmp = None ->
  write_fault env tmp = None ->
  chmod_fault env tmp = None ->
  rename_fault env tmp p = None ->
  outcome_of (downloadBinary env uri info fs) = Returned None
  /\ fs_of (downloadBinary env uri info fs)
     = <[p := mkFile (r_data (e_body e)) binaryChmodValue]> fs.
Proof.
  intros -> -> Ha He Herr Hfree Hopen Hwrite Hchmod Hrename.
  unfold archive_at in Ha. rewrite downloadBinary_run. cbv zeta.
  destruct (url_fault env uri); [discriminate|].
  destruct (http_Do env _) as [response|]; [|discriminate].
  destruct (gunzip env _) as [z|]; [|discriminate].
  simplify_eq. rewrite He, (CreateTemp_loop_first _ _ _ _ Hfree Hopen).
  unfold copy_plan. rewrite Hwrite. cbn [fst snd].
  rewrite Herr, Hchmod, Hrename. cbn [outcome_of fs_of fst snd].
  split; [reflexivity|]. by rewrite delete_fs_chmoded.
Qed.

Lemma download_installs_first_entry_witness :
  outcome_of (downloadBinary Sample.healthy "https://example.org/linux"
                Sample.info Sample.disk) = Returned None
  /\ fs_of (downloadBinary Sample.healthy "https://example.org/linux"
              Sample.info Sample.disk)
     = <[Sample.exe := mkFile Sample.new_binary binaryChmodValue]> Sample.disk.
Proof.
  apply (download_installs_first_entry Sample.healthy "https://example.org/linux"
           Sample.info Sample.disk Sample.good_tar
           (mkEntry "update" (mkReader Sample.new_binary None)) []
           Sample.exe "/usr/local/bin/update0");
    reflexivity.
Defined.

(** X10. The replacement is all or nothing: a run of [downloadBinary]
    that does not return nil, whatever stage failed and also when it
    panics, leaves every file that existed before with its content and
    mode; and a run that returns nil changes no file that existed before
    other than the executable's. *)
Theorem download_failure_keeps_files env uri info (fs : FS) o fs' log :
  downloadBinary env uri info fs = (o, fs', log) ->
  (o <> Returned None -> forall p f, fs !! p = Some f -> fs' !! p = Some f)
  /\ (forall p f, fs !! p = Some f -> p <> (executable env).1 -> fs' !! p = Some f).
Proof.
  intros Hrun. split.
  - intros Ho p f Hp.
    pose proof (downloadBinary_keeps env uri info fs p f Hp) as Hkeep.
    rewrite Hrun in Hkeep. apply Hkeep. by left.
  - intros p f Hp Hne.
    pose proof (downloadBinary_keeps env uri info fs p f Hp) as Hkeep.
    rewrite Hrun in Hkeep. apply Hkeep. by right.
Qed.

Lemma download_failure_keeps_files_witness :
  fs_of (downloadBinary Sample.self_unknown "https://example.org/linux"
           Sample.info Sample.disk) !! Sample.exe
  = Some (mkFile Sample.old_binary binaryChmodValue)
  /\ fs_of (downloadBinary Sample.not_gzip "https://example.org/linux"
              Sample.info Sample.disk) !! Sample.exe
     = Some (mkFile Sample.old_binary binaryChmodValue).
Proof.
  split.
  - destruct (download_failure_keeps_files Sample.self_unknown
                "https://example.org/linux" Sample.info Sample.disk _ _ _ (run_eta _))
      as [_ Hother].
    apply Hother; [reflexivity|]. intros H; vm_compute in H; discriminate H.
  - destruct (download_failure_keeps_files Sample.not_gzip
                "https://example.org/linux" Sample.info Sample.disk _ _ _ (run_eta _))
      as [Hfail _].
    apply Hfail; [|reflexivity]. intros H; vm_compute in H; discriminate H.
Defined.

(** X11. A failed run does not remove its temporary file: when the copy
    was started and the run did not return nil, the file that was created
    is still there afterwards, under a name that was free before, holding
    exactly the bytes the copy wrote, with the mode of its creation or
    0755; its handle was closed. *)
Theorem failed_run_leaves_temp_file env uri info (fs : FS) o fs' log :
  downloadBinary env uri info fs = (o, fs', log) ->
  o <> Returned None ->
  forall tmp written cerr,
    EvCopy tmp written cerr ∈ log ->
    fs !! tmp = None
    /\ (fs' !! tmp = Some (mkFile written (6 * 64))
        \/ fs' !! tmp = Some (mkFile written binaryChmodValue))
    /\ EvClose (HFile tmp) ∈ log.
Proof.
  intros Hrun Ho tmp written cerr Hin.
  download_cases Hrun; in_log Hin; simplify_eq;
    match goal with
    | H : CreateTemp_loop _ _ _ _ _ _ = Ok _ |- _ =>
        apply CreateTemp_loop_fresh in H as [Hfresh _]
    end;
    (split; [exact Hfresh|]); (split; [|set_solver]).
  1, 2: left; apply fs_copied_lookup.
  right; apply fs_chmoded_lookup.
Qed.

Lemma failed_run_leaves_temp_file_witness :
  Sample.disk !! "/usr/local/bin/update0" = None
  /\ (fs_of (downloadBinary Sample.disk_full "https://example.org/linux"
               Sample.info Sample.disk) !! "/usr/local/bin/update0"
      = Some (mkFile (firstn 4 Sample.new_binary) (6 * 64))
      \/ fs_of (downloadBinary Sample.disk_full "https://example.org/linux"
                  Sample.info Sample.disk) !! "/usr/local/bin/update0"
         = Some (mkFile (firstn 4 Sample.new_binary) binaryChmodValue))
  /\ EvClose (HFile "/usr/local/bin/update0")
     ∈ log_of (downloadBinary Sample.disk_full "https://example.org/linux"
                 Sample.info Sample.disk).
Proof.
  apply (failed_run_leaves_temp_file Sample.disk_full "https://example.org/linux"
           Sample.info Sample.disk _ _ _ (run_eta _))
    with (cerr := Some "no space left on device").
  - intros H; vm_compute in H; discriminate H.
  - vm_compute. repeat constructor.
Defined.

(** ** What [downloadBinary] reads, requests and closes *)

(** A way to find what stands before an explicit tail of an explicit
    log. *)
Ltac before_tail :=
  lazymatch goal with
  | |- exists pre, ?l = pre ++ ?t =>
      exists (take (length l - length t) l); reflexivity
  end.

(** X12. Only the first entry of the archive is read: with a tar decoder
    that shows the same archive cut after its first entry, the run is the
    same in what it returns, in the file system it leaves and in its
    log. *)
Theorem only_first_entry_is_read env uri info fs :
  downloadBinary (set_untar (fun r => first_only (untar env r)) env) uri info fs
  = downloadBinary env uri info fs.
Proof.
  rewrite !downloadBinary_run. cbv zeta. unfold copy_plan.
  rewrite (CreateTemp_loop_ext (set_untar _ env) env) by reflexivity.
  cbn [set_untar url_fault http_Do gunzip untar executable path_Dir
       write_fault chmod_fault rename_fault].
  destruct (url_fault env uri); [reflexivity|].
  destruct (http_Do env _) as [response|]; [|reflexivity].
  destruct (gunzip env _) as [z|]; [|reflexivity].
  unfold first_only.
  destruct (untar env z) as [[|e rest] aend]; reflexivity.
Qed.

(** X13. What was opened is closed, last opened first, on every way out:
    once a response was obtained the log ends with the close of its body;
    once the gzip stream was opened it ends with the close of the stream
    and then of the body; once the temporary file was created it ends with
    the close of the file, of the stream and of the body. *)
Theorem handles_are_closed env uri info fs o fs' log :
  downloadBinary env uri info fs = (o, fs', log) ->
  (forall req, EvDo req None ∈ log -> exists pre, log = pre ++ [EvClose HBody])
  /\ (EvGzipNewReader None ∈ log ->
      exists pre, log = pre ++ [EvClose HGzip; EvClose HBody])
  /\ (forall tmp written cerr,
      EvCopy tmp written cerr ∈ log ->
      exists pre, log = pre ++ [EvClose (HFile tmp); EvClose HGzip; EvClose HBody]).
Proof.
  intros Hrun. download_cases Hrun.
  all: split; [|split].
  all: try (intros req Hin; in_log Hin; before_tail).
  all: try (intros Hin; in_log Hin; before_tail).
  all: intros tmp written cerr Hin; in_log Hin; simplify_eq; before_tail.
Qed.

Lemma handles_are_closed_witness :
  (exists pre,
      log_of (downloadBinary Sample.not_gzip "https://example.org/linux"
                Sample.info Sample.disk) = pre ++ [EvClose HBody])
  /\ exists pre,
      log_of (downloadBinary Sample.disk_full "https://example.org/linux"
                Sample.info Sample.disk)
      = pre ++ [EvClose (HFile "/usr/local/bin/update0"); EvClose HGzip; EvClose HBody].
Proof.
  split.
  - destruct (handles_are_closed Sample.not_gzip "https://example.org/linux"
                Sample.info Sample.disk _ _ _ (run_eta _)) as [Hbody _].
    apply (Hbody (mkRequest MethodGet "https://example.org/linux")).
    vm_compute. repeat constructor.
  - destruct (handles_are_closed Sample.disk_full "https://example.org/linux"
                Sample.info Sample.disk _ _ _ (run_eta _)) as (_ & _ & Hfile).
    apply (Hfile "/usr/local/bin/update0" (firstn 4 Sample.new_binary)
             (Some "no space left on device")).
    vm_compute. repeat constructor.
Defined.

(** X14. The only request a run builds and sends is one GET for the URI it
    was given: no other method, no other URL, and no second attempt. *)
Theorem one_get_request env uri info fs o fs' log :
  downloadBinary env uri info fs = (o, fs', log) ->
  (forall method u err, EvNewRequest method u err ∈ log ->
      method = "GET" /\ u = uri)
  /\ (forall req err, EvDo req err ∈ log -> req = mkRequest "GET" uri)
  /\ (count_events is_do log <= 1)%nat.
Proof.
  intros Hrun. split; [|split].
  - intros method u err Hin. download_cases Hrun; in_log Hin; by simplify_eq.
  - intros req err Hin. download_cases Hrun; in_log Hin; by simplify_eq.
  - pose proof (downloadBinary_counts env uri info fs) as [_ Hdos].
    by rewrite Hrun in Hdos.
Qed.

Lemma one_get_request_witness :
  mkRequest MethodGet "https://example.org/linux"
  = mkRequest "GET" "https://example.org/linux".
Proof.
  destruct (one_get_request Sample.healthy "https://example.org/linux"
              Sample.info Sample.disk _ _ _ (run_eta _)) as (_ & Hdo & _).
  apply (Hdo _ None). vm_compute. repeat constructor.
Defined.

(** X15. When the body of the selected asset is not a gzip stream,
    [Execute] panics inside the download: after the check the log holds
    the request, the failed opening, the second progress line and the
    close of the body; neither an error line nor the success line is
    printed, and the file system is as it was. *)
Theorem Execute_panics_on_bad_gzip env info fs release cerr asset response m :
  grc_Check env (AppRepoOwner info) (AppName info) (AppVersion info)
    = (true, release, cerr) ->
  scanAssets (runtime env) release info (Assets release) (zeroAsset, false)
    = (asset, true) ->
  url_fault env (BrowserDownloadURL asset) = None ->
  http_Do env (mkRequest MethodGet (BrowserDownloadURL asset)) = Ok response ->
  gunzip env (Body response) = Err m ->
  Execute env info fs =
  (Panicked nil_deref, fs,
   [EvCheck (AppRepoOwner info) (AppName info) (AppVersion info);
    ev_download;
    EvNewRequest MethodGet (BrowserDownloadURL asset) None;
    EvDo (mkRequest MethodGet (BrowserDownloadURL asset)) None;
    EvGzipNewReader (Some m); ev_extract; EvClose HBody]).
Proof.
  intros Hc Hscan Hu Hd Hg.
  rewrite (Execute_has_update _ _ _ _ _ Hc), Hscan. simpl negb. cbv iota.
  rewrite emit_bind, bind_run, downloadBinary_run. cbv zeta.
  by rewrite Hu, Hd, Hg.
Qed.

Lemma Execute_panics_on_bad_gzip_witness :
  Execute Sample.not_gzip Sample.info Sample.disk =
  (Panicked nil_deref, Sample.disk,
   [EvCheck "Heidelberger" "update" "v1.0.0";
    ev_download;
    EvNewRequest MethodGet "https://example.org/linux" None;
    EvDo (mkRequest MethodGet "https://example.org/linux") None;
    EvGzipNewReader (Some "gzip: invalid header"); ev_extract; EvClose HBody]).
Proof.
  apply (Execute_panics_on_bad_gzip Sample.not_gzip Sample.info Sample.disk
           Sample.release None
           (mkAsset "update-v1.2.0-linux-amd64.tar.gz" "https://example.org/linux")
           (mkResponse (mkReader [Byte.x1f; Byte.x8b] None)) "gzip: invalid header");
    reflexivity.
Defined.

(** X16. [Execute] changes no file other than the running executable's: a
    file that existed before at another path has the same content and mode
    afterwards, whatever the release check, the server and the file system
    calls answer. *)
Theorem Execute_touches_only_the_executable env info (fs : FS) p f :
  fs !! p = Some f ->
  p <> (executable env).1 ->
  fs_of (Execute env info fs) !! p = Some f.
Proof.
  intros Hp Hne.
  destruct (grc_Check env (AppRepoOwner info) (AppName info) (AppVersion info))
    as [[[|] release] cerr] eqn:Hc.
  2: by rewrite (Execute_without_update _ _ _ _ _ Hc).
  rewrite (Execute_has_update _ _ _ _ _ Hc).
  destruct (scanAssets (runtime env) release info (Assets release) (zeroAsset, false))
    as [asset [|]]; simpl negb; cbv iota; [|by rewrite emit_bind].
  rewrite emit_bind, bind_run.
  pose proof (downloadBinary_keeps env (BrowserDownloadURL asset) info fs p f Hp
                (or_intror Hne)) as Hkeep.
  destruct (downloadBinary env (BrowserDownloadURL asset) info fs)
    as [[[[e|]|msg] fs1] ev1]; exact Hkeep.
Qed.

Lemma Execute_touches_only_the_executable_witness :
  fs_of (Execute Sample.self_unknown Sample.info Sample.disk) !! Sample.exe
  = Some (mkFile Sample.old_binary binaryChmodValue).
Proof.
  apply Execute_touches_only_the_executable; [reflexivity|].
  intros H; vm_compute in H; discriminate H.
Defined.

(** ** Outcomes *)

(** What a run returns, read off its log. *)
Lemma downloadBinary_returns env uri info fs r fs' log :
  downloadBinary env uri info fs = (Returned r, fs', log) ->
  r = DownloadError <$> first_checked_err log.
Proof. intros Hrun. download_cases Hrun; reflexivity. Qed.

(** X17. The only panic of [downloadBinary] is the one after a failed
    opening of the gzip stream: a run panics exactly when that call
    answered an error, the panic is then the nil dereference, and the file
    system is still the one the run started on. *)
Theorem panic_only_after_gzip_failure env uri info fs o fs' log :
  downloadBinary env uri info fs = (o, fs', log) ->
  is_panic o = existsb is_gzip_failure log
  /\ (forall msg, o = Panicked msg -> msg = nil_deref /\ fs' = fs).
Proof.
  intros Hrun.
  download_cases Hrun; (split; [reflexivity|]); intros msg' [=]; by subst.
Qed.

Lemma panic_only_after_gzip_failure_witness :
  nil_deref = nil_deref
  /\ fs_of (downloadBinary Sample.not_gzip "https://example.org/linux"
              Sample.info Sample.disk) = Sample.disk.
Proof.
  destruct (panic_only_after_gzip_failure Sample.not_gzip "https://example.org/linux"
              Sample.info Sample.disk _ _ _ (run_eta _)) as [_ Hpanic].
  apply (Hpanic nil_deref). reflexivity.
Defined.

(** X18. What [downloadBinary] returns is decided by the first failure
    among the calls whose error it tests: nil when none of them failed,
    else the Download error with that failure's text.  The line [Execute]
    then prints is that text after "Error: download error: ", followed by
    the success line. *)
Theorem Execute_reports_first_failure env info fs release cerr asset r fs1 ev1 :
  grc_Check env (AppRepoOwner info) (AppName info) (AppVersion info)
    = (true, release, cerr) ->
  scanAssets (runtime env) release info (Assets release) (zeroAsset, false)
    = (asset, true) ->
  downloadBinary env (BrowserDownloadURL asset) info fs = (Returned r, fs1, ev1) ->
  r = DownloadError <$> first_checked_err ev1
  /\ log_of (Execute env info fs) =
     EvCheck (AppRepoOwner info) (AppName info) (AppVersion info)
     :: ev1
     ++ match first_checked_err ev1 with
        | Some m => [EvStdout ("Error: download error: " +:+ m +:+ LF)]
        | None => []
        end
     ++ [EvStdout ("Now you have a fresh new " +:+ AppName info +:+ " \o/" +:+ LF)].
Proof.
  intros Hc Hscan Hdl.
  pose proof (downloadBinary_returns _ _ _ _ _ _ _ Hdl) as Hr.
  split; [exact Hr|].
  rewrite (Execute_has_update _ _ _ _ _ Hc), Hscan. simpl negb. cbv iota.
  rewrite emit_bind, bind_run, Hdl, Hr.
  destruct (first_checked_err ev1) as [m|]; [|reflexivity].
  cbn [fmap option_fmap option_map].
  cbv beta iota delta [mbind M_bind bind emit ret log_of snd].
  unfold error_line. by rewrite Error_DownloadError.
Qed.

Lemma Execute_reports_first_failure_witness :
  Some (DownloadError "no space left on device")
  = DownloadError <$>
    first_checked_err (log_of (downloadBinary Sample.disk_full
                                 "https://example.org/linux" Sample.info Sample.disk))
  /\ log_of (Execute Sample.disk_full Sample.info Sample.disk) =
     EvCheck "Heidelberger" "update" "v1.0.0"
     :: log_of (downloadBinary Sample.disk_full "https://example.org/linux"
                  Sample.info Sample.disk)
     ++ match first_checked_err
                (log_of (downloadBinary Sample.disk_full
                           "https://example.org/linux" Sample.info Sample.disk)) with
        | Some m => [EvStdout ("Error: download error: " +:+ m +:+ LF)]
        | None => []
        end
     ++ [EvStdout ("Now you have a fresh new update \o/" +:+ LF)].
Proof.
  apply (Execute_reports_first_failure Sample.disk_full Sample.info Sample.disk
           Sample.release None
           (mkAsset "update-v1.2.0-linux-amd64.tar.gz" "https://example.org/linux")
           (Some (DownloadError "no space left on device"))
           (fs_of (downloadBinary Sample.disk_full "https://example.org/linux"
                     Sample.info Sample.disk)));
    reflexivity.
Defined.

(** ** What is fetched and what is installed *)

Lemma scanAssets_found rt release info assets st a :
  scanAssets rt release info assets st = (a, true) ->
  st.2 = false ->
  a ∈ assets /\ Name a = buildFilename rt (TagName release) info.
Proof.
  intros Hscan Hst. induction assets as [|b assets IH]; simpl in Hscan.
  - destruct st; simplify_eq/=.
  - destruct (String.eqb_spec (Name b) (buildFilename rt (TagName release) info))
      as [Hb|Hb].
    + simplify_eq. split; [left | exact Hb].
    + destruct (IH Hscan) as [Hin Ha]. split; [by right | exact Ha].
Qed.

Lemma downloadBinary_requests env uri info fs method u err :
  EvNewRequest method u err ∈ log_of (downloadBinary env uri info fs) ->
  u = uri.
Proof.
  destruct (downloadBinary env uri info fs) as [[o fs'] log] eqn:Hrun.
  cbn [log_of snd]. intros Hin. download_cases Hrun; in_log Hin; by simplify_eq.
Qed.

(** X19. [Execute] fetches nothing but an asset of the release that the
    check reported: a URL it builds a request for is the download URL of
    an asset of that release whose name is the expected file name, and the
    check had answered that an update exists. *)
Theorem Execute_fetches_a_release_asset env info fs hasUpdate release cerr :
  grc_Check env (AppRepoOwner info) (AppName info) (AppVersion info)
    = (hasUpdate, release, cerr) ->
  forall method u err,
    EvNewRequest method u err ∈ log_of (Execute env info fs) ->
    hasUpdate = true
    /\ exists a,
        a ∈ Assets release
        /\ Name a = buildFilename (runtime env) (TagName release) info
        /\ u = BrowserDownloadURL a.
Proof.
  intros Hc method u err Hin. destruct hasUpdate.
  2: { rewrite (Execute_without_update _ _ _ _ _ Hc) in Hin.
       cbn [log_of snd] in Hin. in_log Hin. }
  split; [reflexivity|].
  rewrite (Execute_has_update _ _ _ _ _ Hc) in Hin.
  destruct (scanAssets (runtime env) release info (Assets release) (zeroAsset, false))
    as [asset [|]] eqn:Hscan; simpl negb in Hin; cbv iota in Hin.
  2: { rewrite emit_bind in Hin. cbn [emit log_of snd] in Hin. in_log Hin. }
  destruct (scanAssets_found _ _ _ _ _ _ Hscan eq_refl) as [Hasset Hname].
  exists asset. split; [exact Hasset|]. split; [exact Hname|].
  apply (downloadBinary_requests env (BrowserDownloadURL asset) info fs method u err).
  rewrite emit_bind, bind_run in Hin.
  destruct (downloadBinary env (BrowserDownloadURL asset) info fs)
    as [[[[e|]|msg] fs1] ev1];
    cbv beta iota delta [mbind M_bind bind emit ret log_of snd] in Hin |- *;
    apply elem_of_cons in Hin as [Hin|Hin]; try discriminate Hin;
    try exact Hin.
  all: apply elem_of_app in Hin as [Hin|Hin]; [exact Hin | in_log Hin].
Qed.

Lemma Execute_fetches_a_release_asset_witness :
  true = true
  /\ exists a,
      a ∈ Assets Sample.release
      /\ Name a = buildFilename (runtime Sample.healthy) (TagName Sample.release)
                    Sample.info
      /\ "https://example.org/linux" = BrowserDownloadURL a.
Proof.
  apply (Execute_fetches_a_release_asset Sample.healthy Sample.info Sample.disk
           true Sample.release None eq_refl MethodGet "https://example.org/linux" None).
  vm_compute. repeat constructor.
Defined.

(** X20. The executable's path never holds a half-written file: after any
    run of [downloadBinary] the file that was there is either still the
    same, or it is the whole first entry of the archive, read to its end
    without error, with mode 0755. *)
Theorem executable_is_old_or_new env uri info (fs : FS) f :
  fs !! (executable env).1 = Some f ->
  fs_of (downloadBinary env uri info fs) !! (executable env).1 = Some f
  \/ exists a e rest,
      archive_at env uri = Some a /\ entries a = e :: rest
      /\ r_err (e_body e) = None
      /\ fs_of (downloadBinary env uri info fs) !! (executable env).1
         = Some (mkFile (r_data (e_body e)) binaryChmodValue).
Proof.
  intros Hf.
  destruct (downloadBinary env uri info fs) as [[o fs'] log] eqn:Hrun.
  assert (o = Returned None \/ o <> Returned None) as [->|Ho].
  { destruct o as [[e|]|msg]; [right|left|right]; done. }
  - right. cbn [fs_of fst snd]. download_cases Hrun.
    match goal with
    | H : (copy_plan _ _ _).2 = None |- _ =>
        destruct (copy_plan_complete _ _ _ H) as [Hw He]
    end.
    eexists _, _, _. unfold archive_at. use_answers.
    split; [reflexivity|]. split; [eassumption|]. split; [exact He|].
    by rewrite lookup_insert_eq.
  - left.
    pose proof (downloadBinary_keeps env uri info fs _ f Hf) as Hkeep.
    rewrite Hrun in Hkeep. apply Hkeep. by left.
Qed.

Lemma executable_is_old_or_new_witness :
  fs_of (downloadBinary Sample.disk_full "https://example.org/linux"
           Sample.info Sample.disk) !! (executable Sample.disk_full).1
  = Some (mkFile Sample.old_binary binaryChmodValue)
  \/ exists a e rest,
      archive_at Sample.disk_full "https://example.org/linux" = Some a
      /\ entries a = e :: rest /\ r_err (e_body e) = None
      /\ fs_of (downloadBinary Sample.disk_full "https://example.org/linux"
                  Sample.info Sample.disk) !! (executable Sample.disk_full).1
         = Some (mkFile (r_data (e_body e)) binaryChmodValue).
Proof.
  apply (executable_is_old_or_new Sample.disk_full "https://example.org/linux"
           Sample.info Sample.disk).
  reflexivity.
Defined.
